(** * Vigilis client: transcript / incident relay workflow

    A shallow embedding of the client code of the Vigilis application
    ([app/services/transcriptService.ts], [app/services/audioService.ts] and
    the two screens [app/(tabs)/index.tsx], [app/(tabs)/police.tsx]) and the
    properties of its relay workflow.

    Layout of the development:
    - [Js]: the JavaScript values the code manipulates (parsed JSON, thrown
      errors), with the platform operations the code calls on them
      (truthiness, [String(v)], [Array.prototype.join], [JSON.stringify]).
    - [Platform]: the effects: a logical clock, timers and abort controllers,
      [fetch], the console, [AsyncStorage], the UUID generator.  Async
      functions are computations in a small state-and-exception monad whose
      results are: returned, threw, or never settles.
    - [TranscriptService], [AudioService], [Screen]: the source functions.
    - the vocabulary of the statements, and sample environments.
    - the lemmas and the properties, one part per function. *)

From Stdlib Require Import ZArith NArith String Ascii List Lia Bool.
From stdpp Require Import base option gmap strings pretty.
Import ListNotations.

Local Open Scope string_scope.
Set Warnings "-register-all".

(* ===================================================================== *)
(** * JavaScript values *)
(* ===================================================================== *)

Module Js.

(** A value produced by [JSON.parse] ([Response.json()]).  Numbers are the
    integer-valued ones, printed in decimal (what JavaScript does below
    10^21); an object is the list of its own properties in enumeration
    order, with distinct keys.  [undefined] is not a JSON value: an optional
    value is an [option json], [None] standing for [undefined]. *)
Inductive json : Type :=
| JNull
| JBool (b : bool)
| JNum (n : Z)
| JStr (s : string)
| JArr (items : list json)
| JObj (props : list (string * json)).

(** A thrown value.  Everything this program throws or catches is an [Error]
    object (or a DOMException): a [name] and a [message]. *)
Record js_error : Type := MkError { err_name : string; err_message : string }.

(** [new Error(msg)] *)
Definition Error (msg : string) : js_error := MkError "Error" msg.

(** What the platform rejects a [fetch] with when its signal is aborted. *)
Definition AbortError : js_error :=
  MkError "AbortError" "The operation was aborted.".

(** ToBoolean: [null], [false], [0], the empty string and [undefined] are
    falsy; every object and array is truthy. *)
Definition truthy (v : json) : bool :=
  match v with
  | JNull => false
  | JBool b => b
  | JNum n => negb (n =? 0)%Z
  | JStr s => negb (s =? "")%string
  | JArr _ | JObj _ => true
  end.

Definition truthy_opt (v : option json) : bool :=
  match v with Some x => truthy x | None => false end.

(** [a || b]: the left operand when it is truthy, else the right one. *)
Definition js_or (a b : option json) : option json :=
  if truthy_opt a then a else b.

(** Own property of an object, by key. *)
Fixpoint assoc (k : string) (props : list (string * json)) : option json :=
  match props with
  | [] => None
  | (k', v) :: rest => if (k =? k')%string then Some v else assoc k rest
  end.

(** [separator]-joined strings of the elements, as [Array.prototype.join]
    does: [null] (and [undefined]) elements print as the empty string. *)
Definition join_with (str : json -> string) (sep : string)
  : list json -> string :=
  fix go (l : list json) : string :=
    match l with
    | [] => ""
    | x :: rest =>
        let sx := match x with JNull => "" | _ => str x end in
        match rest with
        | [] => sx
        | _ :: _ => sx +:+ sep +:+ go rest
        end
    end.

(** ToString, as a template literal or [join] applies it. *)
Fixpoint js_toString (v : json) : string :=
  match v with
  | JNull => "null"
  | JBool b => if b then "true" else "false"
  | JNum n => pretty n
  | JStr s => s
  | JArr items => join_with js_toString "," items
  | JObj _ => "[object Object]"
  end.

(** [`${v}`] for a possibly undefined value. *)
Definition js_toString_opt (v : option json) : string :=
  match v with Some x => js_toString x | None => "undefined" end.

(** [arr.join(sep)] *)
Definition js_join (sep : string) (l : list json) : string :=
  join_with js_toString sep l.

(** ** [JSON.stringify] *)

Definition dquote : ascii := "034"%char.
Definition backslash : ascii := "\"%char.

Definition hex_digit (n : N) : ascii :=
  ascii_of_N (if (n <? 10)%N then 48 + n else 87 + n)%N.

(** QuoteJSONString on one character: the two-character escapes, [\u00XX]
    for the other control characters, the character itself otherwise. *)
Definition json_escape (c : ascii) : string :=
  let n := N_of_ascii c in
  if (n =? 8)%N then "\b"
  else if (n =? 9)%N then "\t"
  else if (n =? 10)%N then "\n"
  else if (n =? 12)%N then "\f"
  else if (n =? 13)%N then "\r"
  else if (n =? 34)%N then String backslash (String dquote "")
  else if (n =? 92)%N then String backslash (String backslash "")
  else if (n <? 32)%N then
    "\u00" +:+ String (hex_digit (n / 16)) (String (hex_digit (n mod 16)) "")
  else String c "".

Fixpoint json_escape_string (s : string) : string :=
  match s with
  | EmptyString => ""
  | String c rest => json_escape c +:+ json_escape_string rest
  end.

Definition json_quote (s : string) : string :=
  String dquote (json_escape_string s +:+ String dquote "").

Definition comma_sep {A : Type} (str : A -> string) : list A -> string :=
  fix go (l : list A) : string :=
    match l with
    | [] => ""
    | x :: rest =>
        match rest with
        | [] => str x
        | _ :: _ => str x +:+ "," +:+ go rest
        end
    end.

Fixpoint JSON_stringify (v : json) : string :=
  match v with
  | JNull => "null"
  | JBool b => if b then "true" else "false"
  | JNum n => pretty n
  | JStr s => json_quote s
  | JArr items => "[" +:+ comma_sep JSON_stringify items +:+ "]"
  | JObj props =>
      "{" +:+
      comma_sep (fun kv : string * json =>
                   json_quote (fst kv) +:+ ":" +:+ JSON_stringify (snd kv))
                props
      +:+ "}"
  end.

(** [needle] occurs in [hay]. *)
Definition contains (needle hay : string) : Prop :=
  exists pre post, hay = pre +:+ needle +:+ post.

End Js.
Import Js.

(* ===================================================================== *)
(** * The platform: time, timers, network, console, storage *)
(* ===================================================================== *)

Module Platform.

(** ** Requests and responses *)

Inductive form_value : Type :=
| FormText (s : string)
| FormFile (uri name type : string)   (* React Native file descriptor *)
| FormBlob (data : string).           (* browser Blob / File *)

Inductive req_body : Type :=
| BodyText (s : string)
| BodyForm (parts : list (string * form_value)).

(** The [fetch] arguments, the abort signal apart. *)
Record request : Type := MkRequest {
  req_url : string;
  req_method : string;
  req_headers : list (string * string);
  req_payload : req_body
}.

(** A received response.  [res_text_result] and [res_json_result] are what
    [res.text()] and [res.json()] settle to (the body has arrived with the
    response, as with React Native's fetch). *)
Record response : Type := MkResponse {
  status : Z;
  statusText : string;
  res_text_result : string + js_error;
  res_json_result : json + js_error
}.

(** [res.ok]: the status is in the range 200-299. *)
Definition ok (r : response) : bool :=
  ((200 <=? status r) && (status r <=? 299))%Z.

(** What the network does with a request: answer after [latency]
    milliseconds, fail after [latency] milliseconds, or never settle. *)
Inductive net_behaviour : Type :=
| NetRespond (latency : N) (r : response)
| NetReject (latency : N) (e : js_error)
| NetHang.

(** ** The environment of a run: everything the program does not decide *)

Record env : Type := MkEnv {
  net : request -> net_behaviour;
  (** when a timer and a network event fall on the same millisecond *)
  timer_first_on_tie : bool;
  (** [new Date().toISOString()] at a clock value *)
  date_iso : N -> string;
  (** the n-th identifier [uuid.v4()] generates *)
  uuid_v4 : nat -> string;
  (** whether the n-th AsyncStorage operation rejects *)
  storage_fault : nat -> option js_error;
  (** the engine's wording of a TypeError, by site *)
  type_error_text : string -> string;
  (** [process.env] *)
  process_env : string -> option string
}.

Definition TypeError (E : env) (site : string) : js_error :=
  MkError "TypeError" (type_error_text E site).

(** ** The world: what the program's effects change *)

Inductive event : Type :=
| EvConsole (level message : string)
| EvFetch (req : request) (signal : option nat)
| EvAbort (controller : nat) (at_time : N).

(** An armed [setTimeout(() => controller.abort(), ms)]. *)
Record timer : Type := MkTimer { tm_id : nat; tm_fire : N; tm_ctrl : nat }.

Record world : Type := MkWorld {
  clock : N;                      (* logical time, milliseconds *)
  timers : list timer;            (* armed timers *)
  aborted : list nat;             (* controllers whose signal is aborted *)
  trace : list event;             (* newest first *)
  items : gmap string string;     (* AsyncStorage *)
  storage_ops : nat;
  uuid_calls : nat
}.

Definition init_world : world := MkWorld 0 [] [] [] ∅ 0 0.

Definition set_clock (t : N) (w : world) : world :=
  MkWorld t (timers w) (aborted w) (trace w) (items w) (storage_ops w) (uuid_calls w).
Definition set_timers (ts : list timer) (w : world) : world :=
  MkWorld (clock w) ts (aborted w) (trace w) (items w) (storage_ops w) (uuid_calls w).
Definition set_aborted (l : list nat) (w : world) : world :=
  MkWorld (clock w) (timers w) l (trace w) (items w) (storage_ops w) (uuid_calls w).
Definition log (e : event) (w : world) : world :=
  MkWorld (clock w) (timers w) (aborted w) (e :: trace w) (items w) (storage_ops w) (uuid_calls w).
Definition set_items (m : gmap string string) (w : world) : world :=
  MkWorld (clock w) (timers w) (aborted w) (trace w) m (storage_ops w) (uuid_calls w).
Definition count_storage_op (w : world) : world :=
  MkWorld (clock w) (timers w) (aborted w) (trace w) (items w) (S (storage_ops w)) (uuid_calls w).
Definition count_uuid (w : world) : world :=
  MkWorld (clock w) (timers w) (aborted w) (trace w) (items w) (storage_ops w) (S (uuid_calls w)).

(** The requests issued so far, newest first. *)
Fixpoint requests (tr : list event) : list request :=
  match tr with
  | [] => []
  | EvFetch r _ :: rest => r :: requests rest
  | _ :: rest => requests rest
  end.

(** The controllers aborted by a timer so far, newest first. *)
Fixpoint aborts (tr : list event) : list nat :=
  match tr with
  | [] => []
  | EvAbort c _ :: rest => c :: aborts rest
  | _ :: rest => aborts rest
  end.

(** ** Async computations *)

(** How an awaited promise ends: fulfilled, rejected, or never settled. *)
Inductive outcome (A : Type) : Type :=
| Returned (a : A)
| Threw (e : js_error)
| Pending.
Arguments Returned {A} a.
Arguments Threw {A} e.
Arguments Pending {A}.

Definition M (S A : Type) : Type := S -> outcome A * S.

Definition ret {S A} (a : A) : M S A := fun s => (Returned a, s).
Definition throw {S A} (e : js_error) : M S A := fun s => (Threw e, s).
Definition bind {S A B} (m : M S A) (k : A -> M S B) : M S B :=
  fun s =>
    match m s with
    | (Returned a, s') => k a s'
    | (Threw e, s') => (Threw e, s')
    | (Pending, s') => (Pending, s')
    end.

(** [try { m } catch (err) { h err }] *)
Definition try_catch {S A} (m : M S A) (h : js_error -> M S A) : M S A :=
  fun s =>
    match m s with
    | (Threw e, s') => h e s'
    | r => r
    end.

(** [try { m } finally { f }] *)
Definition try_finally {S A} (m : M S A) (f : M S unit) : M S A :=
  fun s =>
    match m s with
    | (Pending, s') => (Pending, s')
    | (o, s') =>
        match f s' with
        | (Returned _, s'') => (o, s'')
        | (Threw e, s'') => (Threw e, s'')
        | (Pending, s'') => (Pending, s'')
        end
    end.

(** [promise.catch(() => dflt)] *)
Definition catch_default {S A} (m : M S A) (dflt : A) : M S A :=
  try_catch m (fun _ => ret dflt).

Declare Scope js_scope.
Delimit Scope js_scope with js.
Notation "x <- m ;; k" := (bind m (fun x => k))
  (at level 100, m at next level, right associativity) : js_scope.
Notation "m ;; k" := (bind m (fun _ => k))
  (at level 100, right associativity) : js_scope.
Local Open Scope js_scope.

(** ** Console, clock *)

Definition console (level message : string) : M world unit :=
  fun w => (Returned tt, log (EvConsole level message) w).

Definition Date_now_toISOString (E : env) : M world string :=
  fun w => (Returned (date_iso E (clock w)), w).

(** ** Abort controllers and timers *)

(** [new AbortController()]: an identifier no timer or abort refers to. *)
Definition fresh_ctrl (w : world) : nat :=
  S (list_max (map tm_ctrl (timers w) ++ aborted w)).

Definition fresh_timer (w : world) : nat :=
  S (list_max (map tm_id (timers w))).

Definition new_AbortController : M world nat :=
  fun w => (Returned (fresh_ctrl w), w).

(** [setTimeout(() => controller.abort(), ms)] *)
Definition setTimeout_abort (controller : nat) (ms : N) : M world nat :=
  fun w =>
    let id := fresh_timer w in
    (Returned id, set_timers (MkTimer id (clock w + ms) controller :: timers w) w).

(** [clearTimeout(id)] *)
Definition clearTimeout (id : nat) : M world unit :=
  fun w =>
    (Returned tt,
     set_timers (List.filter (fun t => negb (tm_id t =? id)%nat) (timers w)) w).

(** The earliest time at which an armed timer aborts [controller]. *)
Fixpoint deadline_of (controller : nat) (ts : list timer) : option N :=
  match ts with
  | [] => None
  | t :: rest =>
      if (tm_ctrl t =? controller)%nat then
        match deadline_of controller rest with
        | Some d => Some (N.min (tm_fire t) d)
        | None => Some (tm_fire t)
        end
      else deadline_of controller rest
  end.

(** Does a timer due at [fire] run before a network event at [at_time]? *)
Definition timer_wins (E : env) (fire at_time : N) : bool :=
  (fire <? at_time)%N || ((fire =? at_time)%N && timer_first_on_tie E).

(** The timer fires: the clock reaches [fire], the controller is aborted and
    its timers due by then are spent. *)
Definition fire_abort (controller : nat) (fire : N) (w : world) : world :=
  log (EvAbort controller fire)
    (set_aborted (controller :: aborted w)
       (set_timers
          (List.filter (fun t => negb ((tm_ctrl t =? controller)%nat
                                  && (tm_fire t <=? fire)%N))
                  (timers w))
          (set_clock fire w))).

(** ** [fetch] *)

(** [await fetch(url, {method, headers, body, signal})].  With a signal that
    is already aborted the promise rejects with an AbortError and nothing is
    sent.  Otherwise the request is issued; the promise rejects with an
    AbortError if a timer aborts the signal before the network settles, and
    else settles as the network decides. *)
Definition fetch (E : env) (req : request) (signal : option nat)
  : M world response :=
  fun w0 =>
    let is_aborted :=
      match signal with
      | Some c => existsb (Nat.eqb c) (aborted w0)
      | None => false
      end in
    if is_aborted then (Threw AbortError, w0)
    else
      let w := log (EvFetch req signal) w0 in
      let deadline :=
        match signal with
        | Some c =>
            match deadline_of c (timers w) with
            | Some d => Some (c, d)
            | None => None
            end
        | None => None
        end in
      match net E req, deadline with
      | NetRespond l r, Some (c, d) =>
          if timer_wins E d (clock w + l) then (Threw AbortError, fire_abort c d w)
          else (Returned r, set_clock (clock w + l) w)
      | NetRespond l r, None => (Returned r, set_clock (clock w + l) w)
      | NetReject l e, Some (c, d) =>
          if timer_wins E d (clock w + l) then (Threw AbortError, fire_abort c d w)
          else (Threw e, set_clock (clock w + l) w)
      | NetReject l e, None => (Threw e, set_clock (clock w + l) w)
      | NetHang, Some (c, d) => (Threw AbortError, fire_abort c d w)
      | NetHang, None => (Pending, w)
      end.

(** [await res.text()], [res.json()] *)
Definition res_text {S} (r : response) : M S string :=
  match res_text_result r with
  | inl s => ret s
  | inr e => throw e
  end.

Definition res_json {S} (r : response) : M S json :=
  match res_json_result r with
  | inl v => ret v
  | inr e => throw e
  end.

(** ** AsyncStorage and the UUID generator *)

Definition storage_op {A} (E : env) (result : world -> A * world) : M world A :=
  fun w =>
    match storage_fault E (storage_ops w) with
    | Some e => (Threw e, count_storage_op w)
    | None => let (a, w') := result w in (Returned a, count_storage_op w')
    end.

(** [await AsyncStorage.getItem(key)]: the stored string, or null. *)
Definition AsyncStorage_getItem (E : env) (key : string) : M world (option string) :=
  storage_op E (fun w => (items w !! key, w)).

(** [await AsyncStorage.setItem(key, value)] *)
Definition AsyncStorage_setItem (E : env) (key value : string) : M world unit :=
  storage_op E (fun w => (tt, set_items (<[key := value]> (items w)) w)).

(** [uuid.v4().toString()] *)
Definition uuid_v4_toString (E : env) : M world string :=
  fun w => (Returned (uuid_v4 E (uuid_calls w)), count_uuid w).

End Platform.
Import Platform.
Local Open Scope js_scope.

(** Falsy strings: [!s] holds of [null]/[undefined] and of the empty string. *)
Definition truthy_str (s : option string) : bool :=
  match s with
  | Some x => negb (x =? "")%string
  | None => false
  end.

(** [s || dflt] on an optional string. *)
Definition or_default (s : option string) (dflt : string) : string :=
  match s with
  | Some x => if (x =? "")%string then dflt else x
  | None => dflt
  end.

(** [data.key] and [key in data], for the property names this program
    uses (incident_id, text, content, transcript, channels): none of them is
    an array index, [length] or an inherited property, so only an object has
    them.  Reading a property of [null] and applying [in] to a primitive
    throw a TypeError. *)
Definition get_property {S} (E : env) (key : string) (v : json)
  : M S (option json) :=
  match v with
  | JObj props => ret (assoc key props)
  | JNull => throw (TypeError E "property of null")
  | _ => ret None
  end.

Definition has_property {S} (E : env) (key : string) (v : json) : M S bool :=
  match v with
  | JObj props => ret (bool_decide (is_Some (assoc key props)))
  | JArr _ => ret false
  | _ => throw (TypeError E "in operator")
  end.

(** [arr.map(f)] for an [f] that may throw. *)
Fixpoint mapM {S A B} (f : A -> M S B) (l : list A) : M S (list B) :=
  match l with
  | [] => ret []
  | x :: rest =>
      y <- f x ;;
      ys <- mapM f rest ;;
      ret (y :: ys)
  end.

(* ===================================================================== *)
(** * app/services/transcriptService.ts *)
(* ===================================================================== *)

Module TranscriptService.

Definition BASE_URL : string := "https://vigilis.onrender.com".

Definition json_headers : list (string * string) :=
  [("Content-Type", "application/json"); ("Accept", "application/json")].

(** The object literal [{incident_id: sessionId, transcript, caller}]. *)
Definition transcript_payload (transcript sessionId caller : string) : json :=
  JObj [("incident_id", JStr sessionId);
        ("transcript", JStr transcript);
        ("caller", JStr caller)].

Definition update_transcript_request (transcript sessionId caller : string)
  : request :=
  MkRequest (BASE_URL +:+ "/incident/update_transcript") "POST" json_headers
    (BodyText (JSON_stringify (transcript_payload transcript sessionId caller))).

(** [sendTranscript(transcript, sessionId, timeoutMs, caller)]; the callers
    pass all four arguments, so the defaults of the last two (15000 and
    'unknown') never apply.  The [try]
    block ends in [return res.json()]: the promise is returned unawaited, so
    it settles after the [finally] block and outside the [catch]. *)
Definition sendTranscript (E : env) (transcript sessionId : string)
    (timeoutMs : N) (caller : string) : M world json :=
  controller <- new_AbortController ;;
  timeout <- setTimeout_abort controller timeoutMs ;;
  promise <-
    try_finally
      (try_catch
         (res <- fetch E (update_transcript_request transcript sessionId caller)
                   (Some controller) ;;
          clearTimeout timeout ;;
          if negb (ok res) then
            errorBody <- res_text res ;;
            throw (Error ("Failed to send transcript: " +:+ pretty (status res)
                          +:+ " " +:+ errorBody))
          else ret (res_json res))
         (fun err =>
            if (err_name err =? "AbortError")%string
            then throw (Error "Request timed out sending transcript")
            else throw err))
      (clearTimeout timeout) ;;
  promise.

(** What [notifyCivilianCallStarted] resolves to: the response, or the
    object [{ok: true, fallback: true}]. *)
Inductive notify_result : Type :=
| NotifyResponse (res : response)
| NotifyFallback.

Definition call_started_payload (sessionId timestamp : string) : json :=
  JObj [("incident_id", JStr sessionId);
        ("caller", JStr "civilian");
        ("timestamp", JStr timestamp)].

Definition call_started_request (sessionId timestamp : string) : request :=
  MkRequest (BASE_URL +:+ "/incident/callStarted") "POST" json_headers
    (BodyText (JSON_stringify (call_started_payload sessionId timestamp))).

(** [notifyCivilianCallStarted(sessionId)], as the screens import it.  (The
    repository holds an earlier copy of this file as well, without the 404
    branch: there every non-success status is thrown directly.) *)
Definition notifyCivilianCallStarted (E : env) (sessionId : string)
  : M world notify_result :=
  console "log" "call started" ;;
  timestamp <- Date_now_toISOString E ;;
  res <- fetch E (call_started_request sessionId timestamp) None ;;
  if negb (ok res) then
    errorBody <- catch_default (res_text res) "" ;;
    console "warn" ("notifyCivilianCallStarted returned "
                    +:+ pretty (status res) +:+ ": " +:+ errorBody) ;;
    if (status res =? 404)%Z then
      try_catch
        (console "log" "Falling back to sendTranscript to initialize incident" ;;
         _ <- sendTranscript E "" sessionId 5000 "civilian" ;;
         ret NotifyFallback)
        (fun fe =>
           throw (Error ("Failed to notify call started (404) and fallback failed: "
                         +:+ err_message fe)))
    else
      throw (Error ("Failed to notify call started: " +:+ pretty (status res)
                    +:+ " " +:+ errorBody))
  else ret (NotifyResponse res).

End TranscriptService.
Import TranscriptService.

(* ===================================================================== *)
(** * app/services/audioService.ts *)
(* ===================================================================== *)

Module AudioService.

Definition ELEVENLABS_API_KEY (E : env) : option string :=
  process_env E "EXPO_PUBLIC_ELEVENLABS_API_KEY".

Definition ELEVENLABS_STT_URL (E : env) : string :=
  or_default (process_env E "EXPO_PUBLIC_ELEVENLABS_STT_URL")
             "https://api.elevenlabs.io/v1/speech-to-text".

(** The argument [fileBlob]: a React Native file [{uri, name?, type?}], or a
    browser Blob / File. *)
Inductive audio_resource : Type :=
| RNFile (uri : string) (name type : option string)
| BlobFile (data : string).

(** The [FormData] of the upload. *)
Definition upload_form (fileBlob : audio_resource) : list (string * form_value) :=
  [("file",
    match fileBlob with
    | RNFile uri name type =>
        FormFile uri (or_default name "recording.m4a") (or_default type "audio/mp4")
    | BlobFile data => FormBlob data
    end);
   ("model_id", FormText "scribe_v1")].

Definition stt_request (E : env) (fileBlob : audio_resource) : request :=
  MkRequest (ELEVENLABS_STT_URL E) "POST"
    [("xi-api-key", default "" (ELEVENLABS_API_KEY E))]
    (BodyForm (upload_form fileBlob)).

(** [key in data && typeof data.key === 'string'], and then [data.key]. *)
Definition string_field {S} (E : env) (key : string) (data : json)
  : M S (option string) :=
  present <- has_property E key data ;;
  if (present : bool) then
    v <- get_property E key data ;;
    ret (match v with Some (JStr s) => Some s | _ => None end)
  else ret None.

(** [c.content || c.text || c.transcript] *)
Definition channel_text {S} (E : env) (c : json) : M S (option json) :=
  a <- get_property E "content" c ;;
  if truthy_opt a then ret a
  else
    b <- get_property E "text" c ;;
    if truthy_opt b then ret b
    else get_property E "transcript" c.

(** [texts.join(' ')] on the values kept by [filter(Boolean)]. *)
Definition join_texts (texts : list (option json)) : string :=
  js_join " " (map (default JNull) texts).

Definition unexpected_response (data : json) : string :=
  "Unexpected transcription response: " +:+ JSON_stringify data.

(** Lines 59-72 of [transcribeAudio]: the text of a parsed response body. *)
Definition extract_text {S} (E : env) (data : json) : M S string :=
  if negb (truthy data) then ret "No transcription returned from ElevenLabs."
  else
    match data with
    | JStr s => ret s
    | _ =>
        text <- string_field E "text" data ;;
        match text with
        | Some s => ret s
        | None =>
        content <- string_field E "content" data ;;
        match content with
        | Some s => ret s
        | None =>
        transcript <- string_field E "transcript" data ;;
        match transcript with
        | Some s => ret s
        | None =>
        present <- has_property E "channels" data ;;
        channels <- (if (present : bool) then get_property E "channels" data
                     else ret None) ;;
        match channels with
        | Some (JArr cs) =>
            mapped <- mapM (channel_text E) cs ;;
            let texts := List.filter truthy_opt mapped in
            if (0 <? length texts)%nat then ret (join_texts texts)
            else ret (unexpected_response data)
        | _ => ret (unexpected_response data)
        end
        end
        end
        end
    end.

Definition transcribeAudio (E : env) (fileBlob : audio_resource) (timeoutMs : N)
  : M world string :=
  if negb (truthy_str (ELEVENLABS_API_KEY E)) then
    throw (Error "ElevenLabs API key not configured (EXPO_PUBLIC_ELEVENLABS_API_KEY)")
  else
    let request := stt_request E fileBlob in
    console "debug" "Transcription request prepared:" ;;
    controller <- new_AbortController ;;
    timeout <- setTimeout_abort controller timeoutMs ;;
    try_catch
      (res <- fetch E request (Some controller) ;;
       clearTimeout timeout ;;
       if negb (ok res) then
         text <- catch_default (res_text res) "" ;;
         throw (Error ("ElevenLabs STT request failed: " +:+ pretty (status res)
                       +:+ " " +:+ statusText res +:+ " " +:+ text))
       else
         data <- catch_default (res_json res) JNull ;;
         extract_text E data)
      (fun err =>
         if (err_name err =? "AbortError")%string
         then throw (Error "Transcription request timed out")
         else throw err).

End AudioService.
Import AudioService.

(* ===================================================================== *)
(** * app/(tabs)/index.tsx and app/(tabs)/police.tsx *)
(* ===================================================================== *)

Module Screen.

(** The state hooks of a screen ([useState]); the two screens declare the
    same ones.  [recording] is the handle of the open recording, if any. *)
Record screen : Type := MkScreen {
  recording : option nat;
  isRecording : bool;
  transcript : string;
  isLoading : bool;
  sendLoading : bool;
  sendError : option string;
  sendSuccess : option string;
  deviceId : option string
}.

Definition initial_transcript : string := "Tap 'Start Recording' to begin...".

(** The text [startRecording] shows while a recording is open. *)
Definition recording_marker : string := "Recording...".

Definition initial_screen : screen :=
  MkScreen None false initial_transcript false false None None None.

Definition DEVICE_ID_KEY : string := "@vigilis_device_id".

(** A handler runs on the screen's state and the world. *)
Definition app : Type := screen * world.

Definition in_world {A} (m : M world A) : M app A :=
  fun a =>
    let (o, w') := m (snd a) in (o, (fst a, w')).

Definition update (f : screen -> screen) : M app unit :=
  fun a => (Returned tt, (f (fst a), snd a)).

Definition setSendLoading (b : bool) : M app unit :=
  update (fun s => MkScreen (recording s) (isRecording s) (transcript s)
                     (isLoading s) b (sendError s) (sendSuccess s) (deviceId s)).
Definition setSendError (e : option string) : M app unit :=
  update (fun s => MkScreen (recording s) (isRecording s) (transcript s)
                     (isLoading s) (sendLoading s) e (sendSuccess s) (deviceId s)).
Definition setSendSuccess (m : option string) : M app unit :=
  update (fun s => MkScreen (recording s) (isRecording s) (transcript s)
                     (isLoading s) (sendLoading s) (sendError s) m (deviceId s)).
Definition setDeviceId (d : option string) : M app unit :=
  update (fun s => MkScreen (recording s) (isRecording s) (transcript s)
                     (isLoading s) (sendLoading s) (sendError s) (sendSuccess s) d).

(** [initDeviceId], run once when a screen mounts (the same code in both
    screens). *)
Definition initDeviceId (E : env) : M app unit :=
  try_catch
    (storedId <- in_world (AsyncStorage_getItem E DEVICE_ID_KEY) ;;
     storedId <-
       (if negb (truthy_str storedId) then
          fresh <- in_world (uuid_v4_toString E) ;;
          in_world (AsyncStorage_setItem E DEVICE_ID_KEY fresh) ;;
          ret fresh
        else ret (default "" storedId)) ;;
     setDeviceId (Some storedId))
    (fun err =>
       in_world (console "error" "Error initializing device ID:") ;;
       setSendError (Some "Failed to initialize device ID")).

(** [handleSend], with the caller tag of the screen: 'civilian' in
    index.tsx, 'police officer' in police.tsx.  [transcript] and [deviceId]
    are the values of the render the handler was created in.  Every value
    thrown inside the [try] is an Error object, so [err?.message ?? ...] is
    its message. *)
Definition handleSend (E : env) (caller : string) : M app unit :=
  fun a =>
    let transcript := transcript (fst a) in
    let deviceId := deviceId (fst a) in
    (if (transcript =? "")%string
        || String.prefix "Recording" transcript
        || String.prefix "Tap" transcript
     then setSendError (Some "No transcript to send")
     else if negb (truthy_str deviceId)
     then setSendError (Some "Device ID not initialized")
     else
       setSendLoading true ;;
       setSendError None ;;
       setSendSuccess None ;;
       try_finally
         (try_catch
            (resp <- in_world (sendTranscript E transcript (default "" deviceId)
                                 15000 caller) ;;
             incident_id <- get_property E "incident_id" resp ;;
             setSendSuccess (Some ("Transcript sent successfully to incident "
                                   +:+ js_toString_opt incident_id)) ;;
             in_world (console "log" "sendTranscript response:"))
            (fun err =>
               in_world (console "error" "Failed to send transcript:") ;;
               setSendError (Some (err_message err))))
         (setSendLoading false)) a.

Definition civilian_handleSend (E : env) : M app unit := handleSend E "civilian".
Definition police_handleSend (E : env) : M app unit := handleSend E "police officer".

(** The JSX of the send button and its banners. *)
Definition send_button_disabled (s : screen) : bool := sendLoading s || isLoading s.

Definition error_banner (s : screen) : option string :=
  if truthy_str (sendError s) then sendError s else None.

Definition success_banner (s : screen) : option string :=
  if truthy_str (sendSuccess s) then sendSuccess s else None.

End Screen.
Import Screen.

(* ===================================================================== *)
(** * The earlier copy of transcriptService.ts *)
(* ===================================================================== *)

Module Legacy.

(** The repository holds a second, earlier copy of the service file.  Its
    [sendTranscript] is the function above, word for word; its
    [notifyCivilianCallStarted] has no 404 branch, logs no warning, and reads
    the error body without a [catch]. *)
Definition notifyCivilianCallStarted (E : env) (sessionId : string)
  : M world response :=
  console "log" "call started" ;;
  timestamp <- Date_now_toISOString E ;;
  res <- fetch E (call_started_request sessionId timestamp) None ;;
  if negb (ok res) then
    errorBody <- res_text res ;;
    throw (Error ("Failed to notify call started: " +:+ pretty (status res)
                  +:+ " " +:+ errorBody))
  else ret res.

End Legacy.

(* ===================================================================== *)
(** * Recording: the rest of the two screens *)
(* ===================================================================== *)

Module Recording.

(** What the microphone and the platform do, as the screens see them
    (expo-av, [Platform.OS]); the program decides none of it. *)
Record device : Type := MkDevice {
  (** [Platform.OS] *)
  platform_os : string;
  (** [permissionResponse?.granted], false while the response is null *)
  permission_granted : bool;
  (** what [requestPermission()] settles to: [granted], or a rejection *)
  request_permission : bool + js_error;
  (** whether [Audio.setAudioModeAsync] rejects *)
  set_audio_mode : option js_error;
  (** what [Audio.Recording.createAsync] settles to: a recording handle *)
  create_recording : nat + js_error;
  (** whether [recording.stopAndUnloadAsync()] rejects *)
  stop_and_unload : nat -> option js_error;
  (** [recording.getURI()]: the file, or null *)
  recording_uri : nat -> option string
}.

Definition requestPermission {S} (D : device) : M S bool :=
  match request_permission D with
  | inl granted => ret granted
  | inr e => throw e
  end.

Definition Audio_setAudioModeAsync {S} (D : device) : M S unit :=
  match set_audio_mode D with
  | Some e => throw e
  | None => ret tt
  end.

Definition Audio_Recording_createAsync {S} (D : device) : M S nat :=
  match create_recording D with
  | inl handle => ret handle
  | inr e => throw e
  end.

Definition stopAndUnloadAsync {S} (D : device) (handle : nat) : M S unit :=
  match stop_and_unload D handle with
  | Some e => throw e
  | None => ret tt
  end.

(** [hay.includes(needle)] *)
Fixpoint includes (needle hay : string) : bool :=
  String.prefix needle hay
  || match hay with
     | EmptyString => false
     | String _ rest => includes needle rest
     end.

(** A call that is not awaited, with a [catch] handler attached: the caller
    goes on whatever becomes of the call, and a rejection only runs the
    handler.  The effects of the call are recorded where it is started. *)
Definition detached {A} (m : M world A) (on_reject : js_error -> M world unit)
  : M world unit :=
  fun w =>
    match m w with
    | (Returned _, w') => (Returned tt, w')
    | (Threw e, w') => (Returned tt, snd (on_reject e w'))
    | (Pending, w') => (Returned tt, w')
    end.

Definition setRecording (r : option nat) : M app unit :=
  update (fun s => MkScreen r (isRecording s) (transcript s) (isLoading s)
                     (sendLoading s) (sendError s) (sendSuccess s) (deviceId s)).
Definition setIsRecording (b : bool) : M app unit :=
  update (fun s => MkScreen (recording s) b (transcript s) (isLoading s)
                     (sendLoading s) (sendError s) (sendSuccess s) (deviceId s)).
Definition setTranscript (t : string) : M app unit :=
  update (fun s => MkScreen (recording s) (isRecording s) t (isLoading s)
                     (sendLoading s) (sendError s) (sendSuccess s) (deviceId s)).
Definition setIsLoading (b : bool) : M app unit :=
  update (fun s => MkScreen (recording s) (isRecording s) (transcript s) b
                     (sendLoading s) (sendError s) (sendSuccess s) (deviceId s)).

Definition microphone_not_found : string :=
  "Microphone not found or not accessible. Please ensure your device has a working microphone and the app has permission to use it.".

(** [startRecording].  The two screens differ in one block: the civilian
    screen ([civilian = true]) notifies the server, without awaiting, when
    the device identity is set; the police screen does not. *)
Definition startRecording (E : env) (D : device) (civilian : bool) : M app unit :=
  fun a =>
    let deviceId := deviceId (fst a) in
    try_catch
      ((if negb (permission_granted D) then
          granted <- requestPermission D ;;
          if negb (granted : bool)
          then throw (Error "Microphone permission is required!")
          else ret tt
        else ret tt) ;;
       (if negb (platform_os D =? "web")%string
        then Audio_setAudioModeAsync D else ret tt) ;;
       (if civilian && truthy_str deviceId then
          in_world
            (detached (notifyCivilianCallStarted E (default "" deviceId))
               (fun err => console "error" "Failed to notify call started:"))
        else ret tt) ;;
       recording <- Audio_Recording_createAsync D ;;
       setRecording (Some recording) ;;
       setIsRecording true ;;
       setTranscript "Recording...")
      (fun error =>
         in_world (console "error" "Failed to start recording") ;;
         setTranscript
           ("Error starting recording: " +:+
            (if negb (platform_os D =? "web")%string
                && includes "No media devices" (err_message error)
             then microphone_not_found
             else err_message error)) ;;
         setIsRecording false) a.

Definition civilian_startRecording (E : env) (D : device) : M app unit :=
  startRecording E D true.
Definition police_startRecording (E : env) (D : device) : M app unit :=
  startRecording E D false.

(** [uploadAndTranscribe(fileUri)]; [transcribeAudio] gets its default
    timeout, 60000 ms. *)
Definition uploadAndTranscribe (E : env) (fileUri : string) : M world string :=
  try_catch
    (transcribeAudio E (RNFile fileUri (Some "recording.m4a") (Some "audio/mp4"))
       60000)
    (fun error =>
       console "error" "Transcription Error:" ;;
       throw (Error ("Failed to transcribe audio: " +:+ err_message error))).

(** [stopRecording], the same in both screens. *)
Definition stopRecording (E : env) (D : device) : M app unit :=
  fun a =>
    match recording (fst a) with
    | None => ret tt a
    | Some handle =>
        (setIsRecording false ;;
         setIsLoading true ;;
         setTranscript "Stopping recording and preparing for transcription..." ;;
         try_finally
           (try_catch
              (stopAndUnloadAsync D handle ;;
               let uri := recording_uri D handle in
               setRecording None ;;
               if negb (truthy_str uri) then
                 throw (Error "Could not retrieve recorded audio URI.")
               else
                 setTranscript "Uploading audio to ElevenLabs..." ;;
                 transcribedText <-
                   in_world (uploadAndTranscribe E (default "" uri)) ;;
                 setTranscript transcribedText ;;
                 setSendError None ;;
                 setSendSuccess None)
              (fun error =>
                 in_world (console "error" "Failed to stop recording or transcribe:") ;;
                 setTranscript ("Transcription failed: " +:+ err_message error)))
           (setIsLoading false)) a
    end.

(** The JSX of the two recording buttons. *)
Definition start_button_disabled (s : screen) : bool := isRecording s || isLoading s.
Definition stop_button_disabled (s : screen) : bool :=
  negb (isRecording s) || isLoading s.

End Recording.
Import Recording.

(* ===================================================================== *)
(** * The vocabulary of the statements *)
(* ===================================================================== *)

(** ** Timers and timeouts *)

(** The world after [new AbortController()] and
    [setTimeout(() => controller.abort(), ms)]. *)
Definition armed (ms : N) (w : world) : world :=
  set_timers (MkTimer (fresh_timer w) (clock w + ms) (fresh_ctrl w) :: timers w) w.

(** ... and after the request has been handed to [fetch]. *)
Definition issued (req : request) (ms : N) (w : world) : world :=
  log (EvFetch req (Some (fresh_ctrl w))) (armed ms w).

(** The network takes longer than [timeoutMs] to settle the request, or
    never settles it. *)
Definition exceeds_timeout (b : net_behaviour) (timeoutMs : N) : Prop :=
  match b with
  | NetRespond l _ | NetReject l _ => (timeoutMs < l)%N
  | NetHang => True
  end.

(** ** The extraction policy, stated on the parsed body *)

(** The property [key] of a JSON value: only an object has one. *)
Definition field (key : string) (v : json) : option json :=
  match v with
  | JObj props => assoc key props
  | _ => None
  end.

(** The property [key], when it is there and holds a string. *)
Definition string_valued (key : string) (v : json) : option string :=
  match field key v with
  | Some (JStr s) => Some s
  | _ => None
  end.

(** The text of a channel entry: the first truthy one of its content, text
    and transcript (the last of them when none is truthy). *)
Definition channel_value (c : json) : option json :=
  js_or (field "content" c) (js_or (field "text" c) (field "transcript" c)).

(** The channel texts that are joined: the truthy ones, in order. *)
Definition kept_texts (cs : list json) : list (option json) :=
  List.filter truthy_opt (map channel_value cs).

(** The body has no string-valued text, content or transcript, and its
    channels property is the array [cs]. *)
Definition reaches_channels (data : json) (cs : list json) : Prop :=
  string_valued "text" data = None
  /\ string_valued "content" data = None
  /\ string_valued "transcript" data = None
  /\ field "channels" data = Some (JArr cs).

(** What [transcribeAudio] makes of a parsed body, case by case. *)
Definition extraction_policy (data : json) : string :=
  if negb (truthy data) then "No transcription returned from ElevenLabs."
  else
    match data with
    | JStr s => s
    | _ =>
        match string_valued "text" data with
        | Some s => s
        | None =>
        match string_valued "content" data with
        | Some s => s
        | None =>
        match string_valued "transcript" data with
        | Some s => s
        | None =>
        match field "channels" data with
        | Some (JArr cs) =>
            match kept_texts cs with
            | [] => unexpected_response data
            | texts => join_texts texts
            end
        | _ => unexpected_response data
        end
        end
        end
        end
    end.

(** The bodies the policy covers: falsy values, strings, arrays and
    objects, with no [null] among the channel entries when these are read. *)
Definition covered_body (data : json) : Prop :=
  match data with
  | JBool b => b = false
  | JNum n => n = 0%Z
  | _ => True
  end
  /\ forall cs, reaches_channels data cs -> Forall (fun c => c <> JNull) cs.

(** ** The request and its outcome *)

(** [await res.json().catch(() => null)] *)
Definition parsed_body (r : response) : json :=
  match res_json_result r with
  | inl v => v
  | inr _ => JNull
  end.

(** The API key is configured and the speech-to-text endpoint answers the
    upload within the timeout, with a success status and the body [data]
    ([null] standing for a body that is not JSON). *)
Definition stt_replies (E : env) (fileBlob : audio_resource) (timeoutMs : N)
    (data : json) : Prop :=
  truthy_str (ELEVENLABS_API_KEY E) = true
  /\ exists l r,
       net E (stt_request E fileBlob) = NetRespond l r
       /\ (l < timeoutMs)%N
       /\ ok r = true
       /\ parsed_body r = data.

Definition prepared (w : world) : world :=
  log (EvConsole "debug" "Transcription request prepared:") w.

(** ** The extraction policy as the specification words it *)

(** The extraction policy in the words of the specification, steps (a) to
    (e): the text it names, or [None] at step (f), where it asks for a
    diagnostic string containing the serialized body. *)
Definition claimed_policy (data : json) : option string :=
  match data with
  | JStr s => Some s
  | _ =>
      match string_valued "text" data with
      | Some s => Some s
      | None =>
      match string_valued "content" data with
      | Some s => Some s
      | None =>
      match string_valued "transcript" data with
      | Some s => Some s
      | None =>
      match field "channels" data with
      | Some (JArr cs) => Some (join_texts (map channel_value cs))
      | _ => None
      end
      end
      end
      end
  end.

(** An outcome of [transcribeAudio] that is as the specification says for
    the body [data]: a returned text, never an exception. *)
Definition meets_claimed_policy (data : json) (o : outcome string) : Prop :=
  match o with
  | Returned txt =>
      match claimed_policy data with
      | Some s => txt = s
      | None => contains (JSON_stringify data) txt
      end
  | _ => False
  end.

(** ** Channel entries *)



(** ** The call-started notification *)

(** [await res.text().catch(() => '')] *)
Definition error_body (r : response) : string :=
  match res_text_result r with
  | inl s => s
  | inr _ => ""
  end.

(** The request [notifyCivilianCallStarted] issues from the world [w]. *)
Definition call_started_from (E : env) (sessionId : string) (w : world) : request :=
  call_started_request sessionId (date_iso E (clock w)).

(** The world once the call-started endpoint has answered [r] after [l]
    milliseconds and the non-success status has been logged. *)
Definition after_refusal (E : env) (sessionId : string) (l : N) (r : response)
    (w : world) : world :=
  log (EvConsole "warn" ("notifyCivilianCallStarted returned "
                         +:+ pretty (status r) +:+ ": " +:+ error_body r))
    (set_clock (clock w + l)
       (log (EvFetch (call_started_from E sessionId w) None)
          (log (EvConsole "log" "call started") w))).

(** ... and the fallback has been announced. *)
Definition before_fallback (E : env) (sessionId : string) (l : N) (r : response)
    (w : world) : world :=
  log (EvConsole "log" "Falling back to sendTranscript to initialize incident")
    (after_refusal E sessionId l r w).

(** ** The send action *)

(** The screen with an error banner set, everything else as it was. *)
Definition with_sendError (msg : string) (s : screen) : screen :=
  MkScreen (recording s) (isRecording s) (transcript s) (isLoading s)
    (sendLoading s) (Some msg) (sendSuccess s) (deviceId s).

(** The transcript is still a placeholder: the initial text, or a text that
    begins with the marker shown while recording. *)
Definition is_placeholder (t : string) : Prop :=
  t = initial_transcript \/ String.prefix recording_marker t = true.

(** The guards of [handleSend] let the send through. *)
Definition send_accepted (s : screen) (d : string) : Prop :=
  (transcript s =? "")%string || String.prefix "Recording" (transcript s)
  || String.prefix "Tap" (transcript s) = false
  /\ deviceId s = Some d
  /\ d <> "".

(** The screen after a failed send. *)
Definition after_failed_send (msg : string) (s : screen) : screen :=
  MkScreen (recording s) (isRecording s) (transcript s) (isLoading s)
    false (Some msg) None (deviceId s).

(** ** The device identity *)

Definition with_deviceId (id : string) (s : screen) : screen :=
  MkScreen (recording s) (isRecording s) (transcript s) (isLoading s)
    (sendLoading s) (sendError s) (sendSuccess s) (Some id).

(** What AsyncStorage holds under the device-identity key. *)
Definition stored_identifier (w : world) : option string :=
  items w !! DEVICE_ID_KEY.

Definition init_failed (s : screen) (w : world) : outcome unit * app :=
  (Returned tt,
   (with_sendError "Failed to initialize device ID" s,
    log (EvConsole "error" "Error initializing device ID:") w)).

(** The generator yields identifiers: non-empty strings (a UUID has 36
    characters). *)
Definition generates_identifiers (E : env) : Prop :=
  forall n, uuid_v4 E n <> "".

(** The persistence layer is available: no operation rejects. *)
Definition storage_available (E : env) : Prop :=
  forall n, storage_fault E n = None.

(** What is stored under the key, if anything, is an identifier, not the
    empty string. *)
Definition store_ok (w : world) : Prop := stored_identifier w <> Some "".

(** The worlds of an installation: the store starts empty, and changes only
    when [initDeviceId] runs (the one place that writes to AsyncStorage) or
    when the device-identity key is cleared. *)
Inductive installed (E : env) : world -> Prop :=
| installed_fresh w :
    items w = ∅ -> installed E w
| installed_init s w :
    installed E w -> installed E (snd (snd (initDeviceId E (s, w))))
| installed_step w w' :
    installed E w -> items w' = items w -> installed E w'
| installed_clear w w' :
    installed E w -> items w' = delete DEVICE_ID_KEY (items w) -> installed E w'.

(** ** Reading a JSON string literal back

    What a JSON parser makes of the escapes [JSON.stringify] writes: it reads
    the characters after an opening quote up to the closing quote, and
    returns the text and what follows the literal. *)

Definition unhex (c : ascii) : option N :=
  let n := N_of_ascii c in
  if ((48 <=? n) && (n <=? 57))%N then Some (n - 48)%N
  else if ((97 <=? n) && (n <=? 102))%N then Some (n - 87)%N
  else None.

Definition unescape (e : ascii) : option ascii :=
  if Ascii.eqb e "b" then Some "008"%char
  else if Ascii.eqb e "t" then Some "009"%char
  else if Ascii.eqb e "n" then Some "010"%char
  else if Ascii.eqb e "f" then Some "012"%char
  else if Ascii.eqb e "r" then Some "013"%char
  else if Ascii.eqb e dquote then Some dquote
  else if Ascii.eqb e backslash then Some backslash
  else None.

Fixpoint read_string_body (s : string) : option (string * string) :=
  match s with
  | EmptyString => None
  | String c rest =>
      if Ascii.eqb c dquote then Some ("", rest)
      else if Ascii.eqb c backslash then
        match rest with
        | EmptyString => None
        | String e rest' =>
            if Ascii.eqb e "u" then
              match rest' with
              | String a (String b (String h (String l rest''))) =>
                  match (if Ascii.eqb a "0" && Ascii.eqb b "0" then unhex h
                         else None),
                        unhex l, read_string_body rest'' with
                  | Some hi, Some lo, Some (t, r) =>
                      Some (String (ascii_of_N (16 * hi + lo)) t, r)
                  | _, _, _ => None
                  end
              | _ => None
              end
            else
              match unescape e, read_string_body rest' with
              | Some x, Some (t, r) => Some (String x t, r)
              | _, _ => None
              end
        end
      else
        match read_string_body rest with
        | Some (t, r) => Some (String c t, r)
        | None => None
        end
  end.

(* ===================================================================== *)
(** * Sample environments *)
(* ===================================================================== *)

Module Samples.

(** An environment with a given network behaviour and API key. *)
Definition sample_env (behaviour : request -> net_behaviour)
    (key : option string) : env :=
  MkEnv behaviour false
    (fun _ => "2025-01-01T00:00:00.000Z")
    (fun n => "device-" +:+ pretty n)
    (fun _ => None)
    (fun site => "TypeError: " +:+ site)
    (fun name =>
       if (name =? "EXPO_PUBLIC_ELEVENLABS_API_KEY")%string then key else None).

(** The network answers every request after 120 ms. *)
Definition answers (code : Z) (text : string) (body : json)
  : request -> net_behaviour :=
  fun _ => NetRespond 120 (MkResponse code "" (inl text) (inl body)).

Definition hangs : request -> net_behaviour := fun _ => NetHang.

(** The call-started route is missing; every other request gets [other]. *)
Definition no_call_started_route (other : net_behaviour)
  : request -> net_behaviour :=
  fun req =>
    if (req_url req =? BASE_URL +:+ "/incident/callStarted")%string
    then NetRespond 80 (MkResponse 404 "Not Found" (inl "Not Found") (inr (MkError "SyntaxError" "Unexpected token")))
    else other.

Definition sample_file : audio_resource :=
  RNFile "file:///recording.m4a" (Some "recording.m4a") (Some "audio/mp4").



Definition ready_screen : screen :=
  MkScreen None false "there is a fire on main street" false false None None
    (Some "device-0").

End Samples.
Import Samples.

(* ===================================================================== *)
(** * Facts about JavaScript values *)
(* ===================================================================== *)

Example stringify_nested :
  JSON_stringify (JObj [("channels", JArr [JObj [("content", JStr "a")]; JNull]);
                        ("n", JNum (-3))])
  = "{" +:+ json_quote "channels" +:+ ":[{" +:+ json_quote "content" +:+ ":"
    +:+ json_quote "a" +:+ "},null]," +:+ json_quote "n" +:+ ":-3}".
Proof. reflexivity. Qed.

Example toString_array :
  js_toString (JArr [JNum 1; JNull; JArr [JStr "x"; JBool true]]) = "1,,x,true".
Proof. reflexivity. Qed.

(* ===================================================================== *)
(** * Facts about the platform *)
(* ===================================================================== *)

Arguments fresh_ctrl : simpl never.
Arguments fresh_timer : simpl never.
Arguments fetch : simpl never.

Lemma deadline_of_none c ts :
  Forall (fun t => tm_ctrl t <> c) ts -> deadline_of c ts = None.
Proof.
  induction 1 as [|t ts Ht _ IH]; simpl; [reflexivity|].
  destruct (Nat.eqb_spec (tm_ctrl t) c); [contradiction | exact IH].
Qed.

Lemma below_list_max (l : list nat) x : In x l -> x < S (list_max l).
Proof.
  intros Hin.
  pose proof (proj1 (list_max_le l (list_max l)) (le_n _)) as H.
  rewrite List.Forall_forall in H. specialize (H x Hin). lia.
Qed.

(** A new controller has no timer yet, and is not aborted. *)
Lemma deadline_of_fresh w : deadline_of (fresh_ctrl w) (timers w) = None.
Proof.
  apply deadline_of_none. rewrite List.Forall_forall. intros t Ht Heq.
  assert (tm_ctrl t < fresh_ctrl w); [|lia].
  apply below_list_max. apply in_or_app. left. apply in_map. exact Ht.
Qed.

Lemma not_aborted_fresh w :
  existsb (Nat.eqb (fresh_ctrl w)) (aborted w) = false.
Proof.
  apply not_true_is_false. intros H.
  apply existsb_exists in H as (x & Hin & Heq).
  apply Nat.eqb_eq in Heq. subst x.
  assert (fresh_ctrl w < fresh_ctrl w); [|lia].
  apply below_list_max. apply in_or_app. right. exact Hin.
Qed.

(** The race between the request and the timer that guards it. *)
Lemma fetch_armed E req ms w :
  fetch E req (Some (fresh_ctrl w)) (armed ms w) =
  match net E req with
  | NetRespond l r =>
      if timer_wins E (clock w + ms) (clock w + l)
      then (Threw AbortError,
            fire_abort (fresh_ctrl w) (clock w + ms) (issued req ms w))
      else (Returned r, set_clock (clock w + l) (issued req ms w))
  | NetReject l e =>
      if timer_wins E (clock w + ms) (clock w + l)
      then (Threw AbortError,
            fire_abort (fresh_ctrl w) (clock w + ms) (issued req ms w))
      else (Threw e, set_clock (clock w + l) (issued req ms w))
  | NetHang =>
      (Threw AbortError,
       fire_abort (fresh_ctrl w) (clock w + ms) (issued req ms w))
  end.
Proof.
  unfold fetch, issued, armed. cbn.
  rewrite not_aborted_fresh, Nat.eqb_refl, deadline_of_fresh.
  reflexivity.
Qed.

Lemma timer_wins_late E t ms l :
  (ms < l)%N -> timer_wins E (t + ms) (t + l) = true.
Proof.
  intros H. unfold timer_wins.
  replace (t + ms <? t + l)%N with true; [reflexivity|].
  symmetry. apply N.ltb_lt. lia.
Qed.

Lemma timer_wins_early E t ms l :
  (l < ms)%N -> timer_wins E (t + ms) (t + l) = false.
Proof.
  intros H. unfold timer_wins.
  replace (t + ms <? t + l)%N with false by (symmetry; apply N.ltb_ge; lia).
  replace (t + ms =? t + l)%N with false by (symmetry; apply N.eqb_neq; lia).
  reflexivity.
Qed.

Lemma fetch_armed_timeout E req ms w :
  exceeds_timeout (net E req) ms ->
  fetch E req (Some (fresh_ctrl w)) (armed ms w)
  = (Threw AbortError, fire_abort (fresh_ctrl w) (clock w + ms) (issued req ms w)).
Proof.
  intros H. rewrite fetch_armed.
  destruct (net E req) as [l r | l e |]; simpl in H;
    try rewrite (timer_wins_late E _ _ _ H); reflexivity.
Qed.

Lemma fetch_armed_response E req ms w l r :
  net E req = NetRespond l r -> (l < ms)%N ->
  fetch E req (Some (fresh_ctrl w)) (armed ms w)
  = (Returned r, set_clock (clock w + l) (issued req ms w)).
Proof.
  intros Hnet Hl. rewrite fetch_armed, Hnet, (timer_wins_early E _ _ _ Hl).
  reflexivity.
Qed.

(** [fetch] without a signal, answered by the network. *)
Lemma fetch_plain_response E req w l r :
  net E req = NetRespond l r ->
  fetch E req None w
  = (Returned r, set_clock (clock w + l) (log (EvFetch req None) w)).
Proof. intros Hnet. unfold fetch. cbn. rewrite Hnet. reflexivity. Qed.

(* ===================================================================== *)
(** * sendTranscript *)
(* ===================================================================== *)

Lemma sendTranscript_unfold E t k ms c w :
  sendTranscript E t k ms c w =
  (promise <-
   try_finally
     (try_catch
        (res <- (fun _ => fetch E (update_transcript_request t k c)
                            (Some (fresh_ctrl w)) (armed ms w)) ;;
         clearTimeout (fresh_timer w) ;;
         if negb (ok res) then
           errorBody <- res_text res ;;
           throw (Error ("Failed to send transcript: " +:+ pretty (status res)
                         +:+ " " +:+ errorBody))
         else ret (res_json res))
        (fun err =>
           if (err_name err =? "AbortError")%string
           then throw (Error "Request timed out sending transcript")
           else throw err))
     (clearTimeout (fresh_timer w)) ;;
   promise) w.
Proof. reflexivity. Qed.

(** Whatever the network does, [sendTranscript] issues exactly one request:
    the update-transcript one. *)
Lemma sendTranscript_requests E t k ms c w :
  requests (trace (snd (sendTranscript E t k ms c w)))
  = update_transcript_request t k c :: requests (trace w).
Proof.
  rewrite sendTranscript_unfold.
  unfold bind, try_finally, try_catch. rewrite fetch_armed.
  destruct (net E _) as [l r | l e |];
    [destruct (timer_wins _ _ _) | destruct (timer_wins _ _ _) |]; cbn;
    try reflexivity.
  - destruct (ok r); cbn.
    + unfold res_json. destruct (res_json_result r); reflexivity.
    + unfold res_text. destruct (res_text_result r) as [s|e]; cbn.
      * reflexivity.
      * destruct (err_name e =? "AbortError")%string; reflexivity.
  - destruct (err_name e =? "AbortError")%string; reflexivity.
Qed.

(** When the request outlasts the timer, the controller is aborted at the
    deadline and the call rejects with the timeout error. *)
Lemma sendTranscript_timeout E t k ms c w :
  exceeds_timeout (net E (update_transcript_request t k c)) ms ->
  exists w',
    sendTranscript E t k ms c w
    = (Threw (Error "Request timed out sending transcript"), w')
    /\ trace w' = EvAbort (fresh_ctrl w) (clock w + ms)
                  :: EvFetch (update_transcript_request t k c) (Some (fresh_ctrl w))
                  :: trace w
    /\ clock w' = (clock w + ms)%N
    /\ aborted w' = fresh_ctrl w :: aborted w.
Proof.
  intros H. rewrite sendTranscript_unfold.
  unfold bind, try_finally, try_catch.
  rewrite (fetch_armed_timeout _ _ _ _ H). cbn.
  eexists. split; [reflexivity|]. cbn. auto.
Qed.

(* ===================================================================== *)
(** * transcribeAudio *)
(* ===================================================================== *)

(** ** The code on an object *)

Lemma string_field_obj {S} E key props (s : S) :
  string_field E key (JObj props) s
  = (Returned (string_valued key (JObj props)), s).
Proof.
  unfold string_field, string_valued, bind, has_property, get_property, ret.
  cbn. destruct (assoc key props) as [v|] eqn:Ha; cbn; reflexivity.
Qed.

Lemma channel_text_value {S} E c (s : S) :
  c <> JNull -> channel_text E c s = (Returned (channel_value c), s).
Proof.
  intros Hc. unfold channel_text, channel_value, js_or, bind.
  destruct c as [ | b | n | x | items | props]; try reflexivity.
  - contradiction.
  - cbn. destruct (truthy_opt (assoc "content" props)); [reflexivity|].
    destruct (truthy_opt (assoc "text" props)); reflexivity.
Qed.

Lemma mapM_channel_text {S} E cs (s : S) :
  Forall (fun c => c <> JNull) cs ->
  mapM (channel_text E) cs s = (Returned (map channel_value cs), s).
Proof.
  induction 1 as [|c cs Hc _ IH]; [reflexivity|].
  cbn. unfold bind. rewrite (channel_text_value E c s Hc), IH. reflexivity.
Qed.

(** On a covered body the code computes the policy, and has no effect. *)
Lemma extract_text_policy {S} E data (s : S) :
  covered_body data ->
  extract_text E data s = (Returned (extraction_policy data), s).
Proof.
  intros [Hshape Hch].
  destruct data as [ | b | n | x | items | props].
  - reflexivity.
  - simpl in Hshape. subst b. reflexivity.
  - simpl in Hshape. subst n. reflexivity.
  - unfold extract_text, extraction_policy.
    destruct (negb (truthy (JStr x))); reflexivity.
  - reflexivity.
  - unfold extract_text, extraction_policy. cbn [truthy negb].
    unfold bind at 1. rewrite string_field_obj.
    destruct (string_valued "text" (JObj props)) as [t|] eqn:Ht; [reflexivity|].
    unfold bind at 1. rewrite string_field_obj.
    destruct (string_valued "content" (JObj props)) as [t|] eqn:Hc; [reflexivity|].
    unfold bind at 1. rewrite string_field_obj.
    destruct (string_valued "transcript" (JObj props)) as [t|] eqn:Hr; [reflexivity|].
    unfold bind, has_property, get_property, ret. cbn.
    destruct (assoc "channels" props) as [v|] eqn:Ha; cbn; [|reflexivity].
    destruct v as [ | b | n | x | cs | ps]; try reflexivity.
    rewrite mapM_channel_text.
    + unfold kept_texts.
      destruct (List.filter truthy_opt (map channel_value cs)); reflexivity.
    + apply Hch. repeat split; assumption.
Qed.

Lemma transcribeAudio_unfold E f ms w :
  truthy_str (ELEVENLABS_API_KEY E) = true ->
  transcribeAudio E f ms w =
  try_catch
    (res <- (fun _ => fetch E (stt_request E f) (Some (fresh_ctrl (prepared w)))
                        (armed ms (prepared w))) ;;
     clearTimeout (fresh_timer (prepared w)) ;;
     if negb (ok res) then
       text <- catch_default (res_text res) "" ;;
       throw (Error ("ElevenLabs STT request failed: " +:+ pretty (status res)
                     +:+ " " +:+ statusText res +:+ " " +:+ text))
     else
       data <- catch_default (res_json res) JNull ;;
       extract_text E data)
    (fun err =>
       if (err_name err =? "AbortError")%string
       then throw (Error "Transcription request timed out")
       else throw err) w.
Proof. intros Hkey. unfold transcribeAudio. rewrite Hkey. reflexivity. Qed.

Lemma catch_default_res_json {S} r (s : S) :
  catch_default (res_json r) JNull s = (Returned (parsed_body r), s).
Proof.
  unfold catch_default, try_catch, res_json, parsed_body.
  destruct (res_json_result r); reflexivity.
Qed.

(** A reply in time: the result is what the extraction makes of the body. *)
Lemma transcribeAudio_reply E f ms w data txt :
  stt_replies E f ms data ->
  (forall s : world, extract_text E data s = (Returned txt, s)) ->
  fst (transcribeAudio E f ms w) = Returned txt
  /\ requests (trace (snd (transcribeAudio E f ms w)))
     = stt_request E f :: requests (trace w).
Proof.
  intros (Hkey & l & r & Hnet & Hl & Hok & Hbody) Hext.
  rewrite (transcribeAudio_unfold _ _ _ _ Hkey).
  unfold try_catch, bind.
  rewrite (fetch_armed_response _ _ _ _ _ _ Hnet Hl). cbn.
  rewrite Hok. cbn. rewrite catch_default_res_json, Hbody, Hext. cbn.
  split; reflexivity.
Qed.

(** A reply that outlasts the timer. *)
Lemma transcribeAudio_timeout E f ms w :
  truthy_str (ELEVENLABS_API_KEY E) = true ->
  exceeds_timeout (net E (stt_request E f)) ms ->
  exists w',
    transcribeAudio E f ms w
    = (Threw (Error "Transcription request timed out"), w')
    /\ trace w' = EvAbort (fresh_ctrl w) (clock w + ms)
                  :: EvFetch (stt_request E f) (Some (fresh_ctrl w))
                  :: trace (prepared w)
    /\ clock w' = (clock w + ms)%N
    /\ aborted w' = fresh_ctrl w :: aborted w.
Proof.
  intros Hkey H. rewrite (transcribeAudio_unfold _ _ _ _ Hkey).
  unfold try_catch, bind.
  rewrite (fetch_armed_timeout _ _ _ _ H). cbn.
  eexists. split; [reflexivity|]. cbn. auto.
Qed.

(* ===================================================================== *)
(** * Properties of the two requests *)
(* ===================================================================== *)

(** ** Configuration *)

(** C10.  When the speech-to-text API key is not configured (the variable is
    unset or empty), [transcribeAudio] rejects with the configuration error
    at once, for every resource and timeout: the world is left as it was, so
    no upload has been prepared or logged, no timer armed and no request
    issued. *)
Theorem transcribeAudio_requires_api_key E fileBlob timeoutMs w :
  ELEVENLABS_API_KEY E = None \/ ELEVENLABS_API_KEY E = Some "" ->
  transcribeAudio E fileBlob timeoutMs w
  = (Threw (Error "ElevenLabs API key not configured (EXPO_PUBLIC_ELEVENLABS_API_KEY)"),
     w).
Proof.
  intros Hkey. unfold transcribeAudio.
  destruct Hkey as [-> | ->]; reflexivity.
Qed.

Lemma transcribeAudio_requires_api_key_witness :
  transcribeAudio (sample_env (answers 200 "" (JObj [("text", JStr "hello")])) None)
    sample_file 60000 init_world
  = (Threw (Error "ElevenLabs API key not configured (EXPO_PUBLIC_ELEVENLABS_API_KEY)"),
     init_world).
Proof.
  apply transcribeAudio_requires_api_key. left. reflexivity.
Defined.

(** ** Timeouts *)

(** C4.  When the network takes longer than the timeout to settle the
    request of [sendTranscript] or [transcribeAudio] (or never settles it),
    the request's controller is aborted at the deadline, right after the
    request was issued, and the call rejects with its timeout error, whether
    or not an answer would have come later. *)
Theorem request_timeout_aborts E timeoutMs w :
  (forall transcript sessionId caller,
     exceeds_timeout (net E (update_transcript_request transcript sessionId caller))
                     timeoutMs ->
     exists w',
       sendTranscript E transcript sessionId timeoutMs caller w
       = (Threw (Error "Request timed out sending transcript"), w')
       /\ trace w' = EvAbort (fresh_ctrl w) (clock w + timeoutMs)
                     :: EvFetch (update_transcript_request transcript sessionId caller)
                                (Some (fresh_ctrl w))
                     :: trace w
       /\ clock w' = (clock w + timeoutMs)%N
       /\ In (fresh_ctrl w) (aborted w'))
  /\
  (forall fileBlob,
     truthy_str (ELEVENLABS_API_KEY E) = true ->
     exceeds_timeout (net E (stt_request E fileBlob)) timeoutMs ->
     exists w',
       transcribeAudio E fileBlob timeoutMs w
       = (Threw (Error "Transcription request timed out"), w')
       /\ trace w' = EvAbort (fresh_ctrl w) (clock w + timeoutMs)
                     :: EvFetch (stt_request E fileBlob) (Some (fresh_ctrl w))
                     :: trace (prepared w)
       /\ clock w' = (clock w + timeoutMs)%N
       /\ In (fresh_ctrl w) (aborted w')).
Proof.
  split.
  - intros t k c H.
    destruct (sendTranscript_timeout E t k timeoutMs c w H)
      as (w' & Hrun & Htr & Hclk & Hab).
    exists w'. rewrite Hab. repeat split; try assumption. left. reflexivity.
  - intros f Hkey H.
    destruct (transcribeAudio_timeout E f timeoutMs w Hkey H)
      as (w' & Hrun & Htr & Hclk & Hab).
    exists w'. rewrite Hab. repeat split; try assumption. left. reflexivity.
Qed.

Lemma request_timeout_aborts_witness :
  fst (sendTranscript (sample_env hangs (Some "key")) "help" "device-0" 15000
         "civilian" init_world)
  = Threw (Error "Request timed out sending transcript")
  /\ fst (transcribeAudio
            (sample_env (answers 200 "" (JObj [("text", JStr "late")])) (Some "key"))
            sample_file 100 init_world)
     = Threw (Error "Transcription request timed out").
Proof.
  split.
  - destruct (proj1 (request_timeout_aborts (sample_env hangs (Some "key")) 15000
                       init_world) "help" "device-0" "civilian" I)
      as (w' & Hrun & _).
    rewrite Hrun. reflexivity.
  - destruct (proj2 (request_timeout_aborts
                       (sample_env (answers 200 "" (JObj [("text", JStr "late")]))
                                   (Some "key")) 100 init_world)
                sample_file eq_refl)
      as (w' & Hrun & _).
    + simpl. lia.
    + rewrite Hrun. reflexivity.
Defined.

(** ** Text extraction *)

Lemma append_cons (c : ascii) (s t : string) :
  String c s +:+ t = String c (s +:+ t).
Proof. reflexivity. Qed.

Lemma append_empty_r (s : string) : s +:+ "" = s.
Proof.
  induction s as [|c s IH]; [reflexivity|].
  rewrite append_cons, IH. reflexivity.
Qed.

Lemma append_assoc (a b c : string) : (a +:+ b) +:+ c = a +:+ (b +:+ c).
Proof.
  induction a as [|x a IH]; [reflexivity|].
  rewrite !append_cons, IH. reflexivity.
Qed.

Lemma contains_suffix (a b : string) : contains b (a +:+ b).
Proof. exists a, "". rewrite append_empty_r. reflexivity. Qed.

Lemma unexpected_response_contains data :
  contains (JSON_stringify data) (unexpected_response data).
Proof. apply contains_suffix. Qed.

Lemma reaches_channels_policy data cs :
  reaches_channels data cs ->
  extraction_policy data
  = match kept_texts cs with
    | [] => unexpected_response data
    | texts => join_texts texts
    end.
Proof.
  intros (Ht & Hc & Hr & Hch). unfold extraction_policy.
  destruct data as [ | b | n | x | items | props]; try discriminate Hch.
  cbn [truthy negb]. rewrite Ht, Hc, Hr, Hch. reflexivity.
Qed.

(** The three bodies the specification gives as examples. *)
Example extraction_text_field :
  extraction_policy (JObj [("text", JStr "hello")]) = "hello".
Proof. reflexivity. Qed.

Example extraction_channels :
  extraction_policy
    (JObj [("channels", JArr [JObj [("content", JStr "a")];
                              JObj [("text", JStr "b")]])])
  = "a b".
Proof. reflexivity. Qed.

Example extraction_empty_object :
  extraction_policy (JObj []) = "Unexpected transcription response: {}".
Proof. reflexivity. Qed.

(** On these three the code does what the specification says. *)
Example claimed_examples_hold :
  let E body := sample_env (answers 200 "" body) (Some "key") in
  let run body := fst (transcribeAudio (E body) sample_file 60000 init_world) in
  let channels := JObj [("channels", JArr [JObj [("content", JStr "a")];
                                           JObj [("text", JStr "b")]])] in
  run (JObj [("text", JStr "hello")]) = Returned "hello"
  /\ run channels = Returned "a b"
  /\ run (JObj []) = Returned ("Unexpected transcription response: "
                               +:+ JSON_stringify (JObj []))
  /\ meets_claimed_policy (JObj [("text", JStr "hello")])
       (run (JObj [("text", JStr "hello")]))
  /\ meets_claimed_policy channels (run channels)
  /\ meets_claimed_policy (JObj []) (run (JObj [])).
Proof.
  repeat split; try reflexivity.
  exact (unexpected_response_contains (JObj [])).
Qed.

(** Bodies on which the code throws: a number, [true] (the [in] operator
    rejects a primitive) and a [null] channel entry. *)
Example number_body_throws :
  fst (transcribeAudio (sample_env (answers 200 "" (JNum 5)) (Some "key"))
         sample_file 60000 init_world)
  = Threw (MkError "TypeError" "TypeError: in operator").
Proof. reflexivity. Qed.

Example null_channel_throws :
  fst (transcribeAudio
         (sample_env (answers 200 "" (JObj [("channels", JArr [JNull])]))
                     (Some "key"))
         sample_file 60000 init_world)
  = Threw (MkError "TypeError" "TypeError: property of null").
Proof. reflexivity. Qed.

(** C1, as stated, fails: on a success response whose body is the empty
    JSON string the specification asks for the body itself (the empty
    text); the code returns its fixed no-transcription message. *)
Lemma transcribeAudio_empty_string_body :
  stt_replies (sample_env (answers 200 "" (JStr "")) (Some "key"))
              sample_file 60000 (JStr "")
  /\ fst (transcribeAudio (sample_env (answers 200 "" (JStr "")) (Some "key"))
            sample_file 60000 init_world)
     = Returned "No transcription returned from ElevenLabs."
  /\ ~ meets_claimed_policy (JStr "")
         (fst (transcribeAudio (sample_env (answers 200 "" (JStr "")) (Some "key"))
                 sample_file 60000 init_world)).
Proof.
  split; [|split].
  - split; [reflexivity|].
    exists 120%N, (MkResponse 200 "" (inl "") (inl (JStr ""))).
    repeat split; reflexivity || (simpl; lia).
  - reflexivity.
  - simpl. discriminate.
Qed.

(** C1, amended.  On a success response received in time, whose body is
    falsy (null, false, 0, the empty string, or not JSON at all), a string,
    an array or an object (with no null among the channel entries when they
    are read), [transcribeAudio] returns, without throwing: the fixed
    no-transcription message for a falsy body; else the body if it is a
    string; else the text property if it is a string; else content; else
    transcript; else, if channels is an array with at least one truthy
    channel text (content || text || transcript), the truthy channel texts
    joined by one space; else the diagnostic string, which contains the
    serialized body. *)
Theorem transcribeAudio_extraction E fileBlob timeoutMs w data :
  stt_replies E fileBlob timeoutMs data ->
  covered_body data ->
  let result := fst (transcribeAudio E fileBlob timeoutMs w) in
  result = Returned (extraction_policy data)
  /\ (truthy data = false ->
      result = Returned "No transcription returned from ElevenLabs.")
  /\ (forall s, data = JStr s -> s <> "" -> result = Returned s)
  /\ (forall s, string_valued "text" data = Some s -> result = Returned s)
  /\ (forall s,
        string_valued "text" data = None ->
        string_valued "content" data = Some s ->
        result = Returned s)
  /\ (forall s,
        string_valued "text" data = None ->
        string_valued "content" data = None ->
        string_valued "transcript" data = Some s ->
        result = Returned s)
  /\ (forall cs t ts,
        reaches_channels data cs ->
        kept_texts cs = t :: ts ->
        result = Returned (join_texts (t :: ts)))
  /\ (truthy data = true ->
      (forall s, data <> JStr s) ->
      string_valued "text" data = None ->
      string_valued "content" data = None ->
      string_valued "transcript" data = None ->
      (forall cs, field "channels" data = Some (JArr cs) -> kept_texts cs = []) ->
      result = Returned (unexpected_response data)
      /\ contains (JSON_stringify data) (unexpected_response data)).
Proof.
  intros Hreply Hcov result.
  assert (Hrun : result = Returned (extraction_policy data)).
  { apply (transcribeAudio_reply E fileBlob timeoutMs w data _ Hreply).
    intros s. apply extract_text_policy. exact Hcov. }
  split; [exact Hrun|]. rewrite Hrun. clear Hrun result.
  split; [|split; [|split; [|split; [|split; [|split]]]]].
  - intros Hf. unfold extraction_policy. rewrite Hf. reflexivity.
  - intros s -> Hs. unfold extraction_policy. cbn.
    destruct (String.eqb_spec s ""); [contradiction | reflexivity].
  - intros s Ht. destruct data; try discriminate Ht.
    unfold extraction_policy. cbn [truthy negb]. rewrite Ht. reflexivity.
  - intros s Ht Hc. destruct data; try discriminate Hc.
    unfold extraction_policy. cbn [truthy negb]. rewrite Ht, Hc. reflexivity.
  - intros s Ht Hc Hr. destruct data; try discriminate Hr.
    unfold extraction_policy. cbn [truthy negb]. rewrite Ht, Hc, Hr. reflexivity.
  - intros cs t ts Hreach Hkept.
    rewrite (reaches_channels_policy data cs Hreach), Hkept. reflexivity.
  - intros Htruthy Hstr Ht Hc Hr Hch.
    split; [|apply unexpected_response_contains]. f_equal.
    unfold extraction_policy. rewrite Htruthy. cbn [negb].
    destruct data as [ | b | n | x | items | props];
      try reflexivity; try (exfalso; apply (Hstr x); reflexivity).
    rewrite Ht, Hc, Hr.
    destruct (field "channels" (JObj props)) as [[ | b | n | x | cs | ps]|] eqn:Hf;
      try reflexivity.
    rewrite (Hch cs eq_refl). reflexivity.
Qed.

Lemma transcribeAudio_extraction_witness :
  fst (transcribeAudio
         (sample_env (answers 200 "" (JObj [("text", JStr "hello")])) (Some "key"))
         sample_file 60000 init_world)
  = Returned "hello".
Proof.
  refine (proj1 (transcribeAudio_extraction
                   (sample_env (answers 200 "" (JObj [("text", JStr "hello")]))
                               (Some "key"))
                   sample_file 60000 init_world
                   (JObj [("text", JStr "hello")]) _ _)).
  - split; [reflexivity|].
    exists 120%N, (MkResponse 200 "" (inl "") (inl (JObj [("text", JStr "hello")]))).
    repeat split; reflexivity || (simpl; lia).
  - split; [exact I|]. intros cs (Ht & _). discriminate Ht.
Defined.








(** When every entry is blank, or there is none, the diagnostic string: *)
Example channels_all_blank :
  let body := JObj [("channels", JArr [JObj [("content", JStr "")]; JObj []])] in
  fst (transcribeAudio (sample_env (answers 200 "" body) (Some "key"))
         sample_file 60000 init_world)
  = Returned ("Unexpected transcription response: " +:+ JSON_stringify body)
  /\ fst (transcribeAudio
            (sample_env (answers 200 "" (JObj [("channels", JArr [])])) (Some "key"))
            sample_file 60000 init_world)
     = Returned ("Unexpected transcription response: "
                 +:+ JSON_stringify (JObj [("channels", JArr [])])).
Proof. split; reflexivity. Qed.

(* ===================================================================== *)
(** * notifyCivilianCallStarted *)
(* ===================================================================== *)

Lemma catch_default_res_text {S} r (s : S) :
  catch_default (res_text r) "" s = (Returned (error_body r), s).
Proof.
  unfold catch_default, try_catch, res_text, error_body.
  destruct (res_text_result r); reflexivity.
Qed.

Lemma notify_refused E sessionId w l r :
  net E (call_started_from E sessionId w) = NetRespond l r ->
  ok r = false ->
  notifyCivilianCallStarted E sessionId w =
  (if (status r =? 404)%Z then
     try_catch
       (_ <- sendTranscript E "" sessionId 5000 "civilian" ;;
        ret NotifyFallback)
       (fun fe =>
          throw (Error ("Failed to notify call started (404) and fallback failed: "
                        +:+ err_message fe)))
       (before_fallback E sessionId l r w)
   else
     (Threw (Error ("Failed to notify call started: " +:+ pretty (status r)
                    +:+ " " +:+ error_body r)),
      after_refusal E sessionId l r w)).
Proof.
  intros Hnet Hok. unfold notifyCivilianCallStarted, call_started_from in *.
  unfold bind at 1. cbn [console].
  unfold bind at 1. cbn [Date_now_toISOString].
  unfold bind at 1. cbn [clock log].
  rewrite (fetch_plain_response _ _ _ _ _ Hnet). rewrite Hok. cbn [negb].
  unfold bind at 1. rewrite catch_default_res_text.
  unfold bind at 1. cbn [console].
  destruct (status r =? 404)%Z; reflexivity.
Qed.

Lemma status_404_not_ok r : status r = 404%Z -> ok r = false.
Proof. intros H. unfold ok. rewrite H. reflexivity. Qed.

(** C2.  When the call-started endpoint answers 404,
    [notifyCivilianCallStarted] calls
    [sendTranscript("", sessionId, 5000, "civilian")]: its outcome is that of
    this call (made once the 404 has been logged), the update-transcript
    request with the empty transcript is the one request issued after the
    call-started one, and it is abandoned 5000 ms later if the network has
    not settled it.  If the fallback fails, the one error thrown has a message
    made of the text of the 404 failure, "Failed to notify call started
    (404)", and of the message of the fallback's failure. *)
Theorem notify_404_falls_back E sessionId w l r :
  net E (call_started_from E sessionId w) = NetRespond l r ->
  status r = 404%Z ->
  let w1 := before_fallback E sessionId l r w in
  let fallback := sendTranscript E "" sessionId 5000 "civilian" w1 in
  notifyCivilianCallStarted E sessionId w
  = match fallback with
    | (Returned _, w2) => (Returned NotifyFallback, w2)
    | (Threw fe, w2) =>
        (Threw (Error ("Failed to notify call started (404) and fallback failed: "
                       +:+ err_message fe)), w2)
    | (Pending, w2) => (Pending, w2)
    end
  /\ requests (trace (snd (notifyCivilianCallStarted E sessionId w)))
     = update_transcript_request "" sessionId "civilian"
       :: call_started_from E sessionId w :: requests (trace w)
  /\ (exceeds_timeout (net E (update_transcript_request "" sessionId "civilian"))
                      5000 ->
      clock (snd (notifyCivilianCallStarted E sessionId w)) = (clock w + l + 5000)%N)
  /\ (forall fe, fst fallback = Threw fe ->
      exists msg,
        fst (notifyCivilianCallStarted E sessionId w) = Threw (Error msg)
        /\ contains "Failed to notify call started (404)" msg
        /\ contains (err_message fe) msg).
Proof.
  intros Hnet H404 w1 fallback.
  pose proof (notify_refused E sessionId w l r Hnet (status_404_not_ok r H404))
    as Hrun.
  rewrite H404 in Hrun. cbn [Z.eqb Pos.eqb] in Hrun.
  unfold try_catch, bind, ret, throw in Hrun. fold w1 in Hrun. fold fallback in Hrun.
  assert (Hmatch :
    notifyCivilianCallStarted E sessionId w
    = match fallback with
      | (Returned _, w2) => (Returned NotifyFallback, w2)
      | (Threw fe, w2) =>
          (Threw (Error ("Failed to notify call started (404) and fallback failed: "
                         +:+ err_message fe)), w2)
      | (Pending, w2) => (Pending, w2)
      end).
  { rewrite Hrun. destruct fallback as [[a | fe |] w2]; reflexivity. }
  assert (Hsnd : snd (notifyCivilianCallStarted E sessionId w) = snd fallback).
  { rewrite Hmatch. destruct fallback as [[a | fe |] w2]; reflexivity. }
  split; [exact Hmatch|]. split; [|split].
  - rewrite Hsnd. unfold fallback. rewrite sendTranscript_requests. reflexivity.
  - intros Hslow. rewrite Hsnd. unfold fallback.
    destruct (sendTranscript_timeout E "" sessionId 5000 "civilian" w1 Hslow)
      as (w' & Hsend & _ & Hclk & _).
    rewrite Hsend. cbn [snd]. rewrite Hclk. reflexivity.
  - intros fe Hfe. rewrite Hmatch.
    destruct fallback as [[a | fe' |] w2]; try discriminate Hfe.
    cbn in Hfe. injection Hfe as ->.
    eexists. split; [reflexivity|]. split.
    + exists "", (" and fallback failed: " +:+ err_message fe). reflexivity.
    + apply contains_suffix.
Qed.

Lemma notify_404_falls_back_witness :
  fst (notifyCivilianCallStarted
         (sample_env (no_call_started_route
                        (NetRespond 120 (MkResponse 500 "" (inl "boom") (inl JNull))))
                     None)
         "device-0" init_world)
  = Threw (Error ("Failed to notify call started (404) and fallback failed: "
                  +:+ "Failed to send transcript: 500 boom")).
Proof.
  rewrite (proj1 (notify_404_falls_back
                    (sample_env (no_call_started_route
                                   (NetRespond 120 (MkResponse 500 "" (inl "boom")
                                                      (inl JNull))))
                                None)
                    "device-0" init_world 80
                    (MkResponse 404 "Not Found" (inl "Not Found")
                       (inr (MkError "SyntaxError" "Unexpected token")))
                    eq_refl eq_refl)).
  reflexivity.
Defined.

(** The 404 response body is only logged: it is not part of the message. *)
Example fallback_message_omits_404_body :
  fst (notifyCivilianCallStarted
         (sample_env (no_call_started_route NetHang) None) "device-0" init_world)
  = Threw (Error ("Failed to notify call started (404) and fallback failed: "
                  +:+ "Request timed out sending transcript")).
Proof. reflexivity. Qed.

(** C7.  When the call-started endpoint answers a non-success status other
    than 404, [notifyCivilianCallStarted] rejects at once with the error
    whose message carries the status and the response body (the empty text
    when the body cannot be read); the call-started request is the only
    request issued and no timer is armed: the [sendTranscript] fallback is
    not attempted. *)
Theorem notify_other_status_fails_directly E sessionId w l r :
  net E (call_started_from E sessionId w) = NetRespond l r ->
  ok r = false ->
  status r <> 404%Z ->
  notifyCivilianCallStarted E sessionId w
  = (Threw (Error ("Failed to notify call started: " +:+ pretty (status r)
                   +:+ " " +:+ error_body r)),
     after_refusal E sessionId l r w)
  /\ requests (trace (after_refusal E sessionId l r w))
     = call_started_from E sessionId w :: requests (trace w)
  /\ timers (after_refusal E sessionId l r w) = timers w
  /\ contains (pretty (status r))
       ("Failed to notify call started: " +:+ pretty (status r)
        +:+ " " +:+ error_body r)
  /\ contains (error_body r)
       ("Failed to notify call started: " +:+ pretty (status r)
        +:+ " " +:+ error_body r).
Proof.
  intros Hnet Hok Hstatus.
  rewrite (notify_refused E sessionId w l r Hnet Hok).
  destruct (Z.eqb_spec (status r) 404); [contradiction|].
  repeat split.
  - exists "Failed to notify call started: ", (" " +:+ error_body r). reflexivity.
  - exists ("Failed to notify call started: " +:+ pretty (status r) +:+ " "), "".
    rewrite append_empty_r, !append_assoc. reflexivity.
Qed.

Lemma notify_other_status_fails_directly_witness :
  fst (notifyCivilianCallStarted
         (sample_env (answers 503 "Service Unavailable" JNull) None)
         "device-0" init_world)
  = Threw (Error "Failed to notify call started: 503 Service Unavailable").
Proof.
  rewrite (proj1 (notify_other_status_fails_directly
                    (sample_env (answers 503 "Service Unavailable" JNull) None)
                    "device-0" init_world 120
                    (MkResponse 503 "" (inl "Service Unavailable") (inl JNull))
                    eq_refl eq_refl ltac:(discriminate))).
  reflexivity.
Defined.

(* ===================================================================== *)
(** * The send action *)
(* ===================================================================== *)

Lemma prefix_append (a b t : string) :
  String.prefix (a +:+ b) t = true -> String.prefix a t = true.
Proof.
  revert t. induction a as [|x a IH]; intros t H.
  - destruct t; reflexivity.
  - destruct t as [|y t]; [discriminate H|].
    rewrite append_cons in H. simpl in H |- *.
    destruct (ascii_dec x y); [apply IH; exact H | discriminate H].
Qed.

Lemma placeholder_guard t :
  is_placeholder t ->
  (t =? "")%string || String.prefix "Recording" t || String.prefix "Tap" t = true.
Proof.
  intros [-> | H]; [reflexivity|].
  rewrite (prefix_append "Recording" "..." t H).
  destruct (t =? "")%string; reflexivity.
Qed.

(** The guards of [handleSend] reject: one banner is set, nothing else. *)
Lemma handleSend_no_transcript E caller s w :
  (transcript s =? "")%string || String.prefix "Recording" (transcript s)
  || String.prefix "Tap" (transcript s) = true ->
  handleSend E caller (s, w)
  = (Returned tt, (with_sendError "No transcript to send" s, w)).
Proof. intros H. unfold handleSend. cbn [fst]. rewrite H. reflexivity. Qed.

Lemma handleSend_no_device E caller s w :
  (transcript s =? "")%string || String.prefix "Recording" (transcript s)
  || String.prefix "Tap" (transcript s) = false ->
  truthy_str (deviceId s) = false ->
  handleSend E caller (s, w)
  = (Returned tt, (with_sendError "Device ID not initialized" s, w)).
Proof.
  intros H Hd. unfold handleSend. cbn [fst]. rewrite H, Hd. reflexivity.
Qed.

(** C6.  The send action is rejected, with an error message set and the
    world untouched (no network call), when the transcript still equals the
    initial placeholder or begins with the recording marker, or when the
    device identity is not resolved.  Hence a send that issues a request had
    a transcript that is no placeholder and a resolved device identity. *)
Theorem handleSend_rejects_unready E caller s w :
  (is_placeholder (transcript s) \/ deviceId s = None ->
   exists msg,
     msg <> ""
     /\ handleSend E caller (s, w) = (Returned tt, (with_sendError msg s, w))
     /\ error_banner (with_sendError msg s) = Some msg)
  /\
  (requests (trace (snd (snd (handleSend E caller (s, w))))) <> requests (trace w) ->
   ~ is_placeholder (transcript s) /\ exists d, deviceId s = Some d /\ d <> "").
Proof.
  assert (Hreject :
    is_placeholder (transcript s) \/ truthy_str (deviceId s) = false ->
    exists msg,
      msg <> ""
      /\ handleSend E caller (s, w) = (Returned tt, (with_sendError msg s, w))
      /\ error_banner (with_sendError msg s) = Some msg).
  { intros H.
    destruct ((transcript s =? "")%string || String.prefix "Recording" (transcript s)
              || String.prefix "Tap" (transcript s)) eqn:Hguard.
    - exists "No transcript to send".
      rewrite (handleSend_no_transcript E caller s w Hguard).
      repeat split. discriminate.
    - destruct H as [H | H].
      + rewrite (placeholder_guard _ H) in Hguard. discriminate Hguard.
      + exists "Device ID not initialized".
        rewrite (handleSend_no_device E caller s w Hguard H).
        repeat split. discriminate. }
  split.
  - intros [H | H]; apply Hreject; [left; exact H | right].
    rewrite H. reflexivity.
  - intros Hsent.
    assert (Hno : ~ (is_placeholder (transcript s)
                     \/ truthy_str (deviceId s) = false)).
    { intros H. destruct (Hreject H) as (msg & _ & Hrun & _).
      rewrite Hrun in Hsent. apply Hsent. reflexivity. }
    split; [tauto|].
    destruct (deviceId s) as [d|] eqn:Hd.
    + exists d. split; [reflexivity|]. intros ->. apply Hno. right. reflexivity.
    + exfalso. apply Hno. right. reflexivity.
Qed.

Lemma handleSend_rejects_unready_witness :
  (exists msg,
     msg <> ""
     /\ handleSend (sample_env hangs None) "civilian" (initial_screen, init_world)
        = (Returned tt, (with_sendError msg initial_screen, init_world))
     /\ error_banner (with_sendError msg initial_screen) = Some msg)
  /\ (~ is_placeholder (transcript ready_screen)
      /\ exists d, deviceId ready_screen = Some d /\ d <> "").
Proof.
  split.
  - apply (proj1 (handleSend_rejects_unready (sample_env hangs None) "civilian"
                    initial_screen init_world)).
    left. left. reflexivity.
  - apply (proj2 (handleSend_rejects_unready (sample_env hangs None) "civilian"
                    ready_screen init_world)).
    vm_compute. discriminate.
Defined.

Arguments sendTranscript : simpl never.

Lemma handleSend_failure E caller s w d e w' :
  send_accepted s d ->
  sendTranscript E (transcript s) d 15000 caller w = (Threw e, w') ->
  handleSend E caller (s, w)
  = (Returned tt,
     (after_failed_send (err_message e) s,
      log (EvConsole "error" "Failed to send transcript:") w')).
Proof.
  intros (Hguard & Hd & Hne) Hsend.
  unfold handleSend. cbn [fst]. rewrite Hguard, Hd.
  assert (Ht : truthy_str (Some d) = true).
  { simpl. destruct (String.eqb_spec d ""); [contradiction | reflexivity]. }
  rewrite Ht. cbn [negb default option_rect id].
  unfold bind, try_finally, try_catch, setSendLoading, setSendError,
    setSendSuccess, update, in_world.
  cbn [fst snd]. 
  change (default "" (Some d)) with d.
  rewrite Hsend. reflexivity.
Qed.

(** C8.  When [sendTranscript] fails during an accepted send action, the
    handler completes; the error banner holds the failure's message (and is
    rendered whenever that message is not empty), no success message is
    recorded, the transcript, the device identity and the recording state
    are unchanged, no further request is issued, and the send button is
    enabled again (unless a transcription is in progress): the send can be
    retried. *)
Theorem handleSend_failure_is_retryable E caller s w d e w' :
  send_accepted s d ->
  sendTranscript E (transcript s) d 15000 caller w = (Threw e, w') ->
  exists s' w'',
    handleSend E caller (s, w) = (Returned tt, (s', w''))
    /\ sendError s' = Some (err_message e)
    /\ (err_message e <> "" -> error_banner s' = Some (err_message e))
    /\ sendSuccess s' = None
    /\ success_banner s' = None
    /\ transcript s' = transcript s
    /\ deviceId s' = deviceId s
    /\ recording s' = recording s
    /\ isRecording s' = isRecording s
    /\ isLoading s' = isLoading s
    /\ sendLoading s' = false
    /\ send_button_disabled s' = isLoading s
    /\ send_accepted s' d
    /\ requests (trace w'') = requests (trace w').
Proof.
  intros Hacc Hsend.
  exists (after_failed_send (err_message e) s),
         (log (EvConsole "error" "Failed to send transcript:") w').
  split; [exact (handleSend_failure E caller s w d e w' Hacc Hsend)|].
  repeat split; try reflexivity; try apply Hacc.
  intros Hmsg. unfold error_banner. cbn.
  destruct (String.eqb_spec (err_message e) ""); [contradiction | reflexivity].
Qed.

Lemma handleSend_failure_is_retryable_witness :
  exists s' w'',
    handleSend (sample_env (answers 500 "boom" JNull) None) "civilian"
      (ready_screen, init_world)
    = (Returned tt, (s', w''))
    /\ sendError s' = Some "Failed to send transcript: 500 boom"
    /\ sendSuccess s' = None
    /\ transcript s' = transcript ready_screen
    /\ deviceId s' = deviceId ready_screen
    /\ send_button_disabled s' = false.
Proof.
  destruct (handleSend_failure_is_retryable
              (sample_env (answers 500 "boom" JNull) None) "civilian"
              ready_screen init_world "device-0"
              (Error "Failed to send transcript: 500 boom")
              (snd (sendTranscript (sample_env (answers 500 "boom" JNull) None)
                      (transcript ready_screen) "device-0" 15000 "civilian"
                      init_world)))
    as (s' & w'' & Hrun & Herr & _ & Hok & _ & Ht & Hd & _ & _ & _ & _ & Hbtn & _).
  - repeat split; try reflexivity. discriminate.
  - reflexivity.
  - exists s', w''. repeat split; assumption.
Defined.

(** The success path, end to end: the relay answers with the incident, and
    the screen shows the success message naming it. *)
Example handleSend_success :
  let reply := JObj [("status", JStr "success"); ("message", JStr "ok");
                     ("incident_id", JStr "device-0"); ("caller", JStr "civilian")] in
  let s' := fst (snd (civilian_handleSend (sample_env (answers 200 "" reply) None)
                        (ready_screen, init_world))) in
  success_banner s' = Some "Transcript sent successfully to incident device-0"
  /\ error_banner s' = None
  /\ send_button_disabled s' = false.
Proof. repeat split. Qed.

(* ===================================================================== *)
(** * The device identity *)
(* ===================================================================== *)

(** [initDeviceId], case by case: the read fails; an identifier is stored;
    none is, and the write fails or succeeds. *)
Lemma initDeviceId_run E s w :
  initDeviceId E (s, w) =
  match storage_fault E (storage_ops w) with
  | Some _ => init_failed s (count_storage_op w)
  | None =>
      if truthy_str (stored_identifier w) then
        (Returned tt,
         (with_deviceId (default "" (stored_identifier w)) s, count_storage_op w))
      else
        match storage_fault E (S (storage_ops w)) with
        | Some _ => init_failed s (count_storage_op (count_uuid (count_storage_op w)))
        | None =>
            (Returned tt,
             (with_deviceId (uuid_v4 E (uuid_calls w)) s,
              count_storage_op
                (set_items (<[DEVICE_ID_KEY := uuid_v4 E (uuid_calls w)]> (items w))
                   (count_uuid (count_storage_op w)))))
        end
  end.
Proof.
  unfold initDeviceId, try_catch, bind, in_world, AsyncStorage_getItem,
    AsyncStorage_setItem, storage_op, uuid_v4_toString, stored_identifier.
  cbn [fst snd].
  destruct (storage_fault E (storage_ops w)) as [e|]; [reflexivity|].
  cbn [fst snd]. destruct (truthy_str (items w !! DEVICE_ID_KEY)); [reflexivity|].
  cbn. destruct (storage_fault E (S (storage_ops w))); reflexivity.
Qed.

Lemma store_ok_fresh_install : store_ok init_world.
Proof. unfold store_ok, stored_identifier. simpl. discriminate. Qed.

Lemma store_ok_cleared w :
  store_ok (set_items (delete DEVICE_ID_KEY (items w)) w).
Proof.
  unfold store_ok, stored_identifier. simpl.
  rewrite lookup_delete_eq. discriminate.
Qed.

Lemma truthy_str_some v : v <> "" -> truthy_str (Some v) = true.
Proof.
  intros H. simpl. destruct (String.eqb_spec v ""); [contradiction | reflexivity].
Qed.

Lemma truthy_str_stored w :
  store_ok w -> truthy_str (stored_identifier w) = false ->
  stored_identifier w = None.
Proof.
  unfold store_ok. destruct (stored_identifier w) as [v|]; [|reflexivity].
  simpl. destruct (String.eqb_spec v ""); [subst; intros H; contradiction|].
  discriminate.
Qed.

Lemma initDeviceId_store_ok E s w :
  generates_identifiers E -> store_ok w ->
  store_ok (snd (snd (initDeviceId E (s, w)))).
Proof.
  intros Hgen Hok. rewrite initDeviceId_run.
  destruct (storage_fault E (storage_ops w)); [exact Hok|].
  destruct (truthy_str (stored_identifier w)); [exact Hok|].
  destruct (storage_fault E (S (storage_ops w))); [exact Hok|].
  unfold store_ok, stored_identifier. simpl. rewrite lookup_insert_eq.
  intros H. injection H as H. exact (Hgen _ H).
Qed.

(** Every world of an installation has a store that is in order. *)
Lemma installed_store_ok E w :
  generates_identifiers E -> installed E w -> store_ok w.
Proof.
  intros Hgen. induction 1 as [w H0 | s w _ IH | w w' _ IH Heq | w w' _ IH Heq].
  - unfold store_ok, stored_identifier. rewrite H0, lookup_empty. discriminate.
  - exact (initDeviceId_store_ok E s w Hgen IH).
  - unfold store_ok, stored_identifier in *. rewrite Heq. exact IH.
  - unfold store_ok, stored_identifier. rewrite Heq, lookup_delete_eq.
    discriminate.
Qed.

(** C5.  With a generator of (non-empty) identifiers: when storage is
    available, two runs of the device-identity initialization, from either
    screen and with nothing clearing the store in between, set the same
    identifier, which is the one stored, and the second run neither
    generates nor writes anything; an identifier already stored under the
    key is never overwritten (the store is left as it is and nothing is
    generated), whatever storage does; and, on a store in order, as is every
    store of an installation ([installed_store_ok]), an identifier is
    generated or written only when the key is absent, and the store stays in
    order. *)
Theorem initDeviceId_idempotent E s1 s2 w :
  generates_identifiers E ->
  let w1 := snd (snd (initDeviceId E (s1, w))) in
  let w2 := snd (snd (initDeviceId E (s2, w1))) in
  (storage_available E ->
   exists id,
     id <> ""
     /\ deviceId (fst (snd (initDeviceId E (s1, w)))) = Some id
     /\ deviceId (fst (snd (initDeviceId E (s2, w1)))) = Some id
     /\ stored_identifier w1 = Some id
     /\ items w2 = items w1
     /\ uuid_calls w2 = uuid_calls w1)
  /\ (forall v, stored_identifier w = Some v -> v <> "" ->
      items w1 = items w /\ uuid_calls w1 = uuid_calls w)
  /\ (store_ok w ->
      uuid_calls w1 <> uuid_calls w \/ items w1 <> items w ->
      stored_identifier w = None)
  /\ (store_ok w -> store_ok w1).
Proof.
  intros Hgen w1 w2. subst w2 w1.
  assert (Hkeep : forall s w0 v,
            stored_identifier w0 = Some v -> v <> "" ->
            items (snd (snd (initDeviceId E (s, w0)))) = items w0
            /\ uuid_calls (snd (snd (initDeviceId E (s, w0)))) = uuid_calls w0
            /\ (storage_fault E (storage_ops w0) = None ->
                deviceId (fst (snd (initDeviceId E (s, w0)))) = Some v)).
  { intros s w0 v Hv Hne. rewrite initDeviceId_run, Hv, (truthy_str_some v Hne).
    destruct (storage_fault E (storage_ops w0)); repeat split; try reflexivity.
    discriminate. }
  split; [|split; [|split]].
  - intros Havail.
    destruct (truthy_str (stored_identifier w)) eqn:Htruthy.
    + destruct (stored_identifier w) as [v|] eqn:Hv; [|discriminate Htruthy].
      assert (Hne : v <> "").
      { intros ->. discriminate Htruthy. }
      destruct (Hkeep s1 w v Hv Hne) as (Hi1 & Hu1 & Hd1).
      assert (Hv1 : stored_identifier (snd (snd (initDeviceId E (s1, w)))) = Some v).
      { unfold stored_identifier in *. rewrite Hi1. exact Hv. }
      destruct (Hkeep s2 _ v Hv1 Hne) as (Hi2 & Hu2 & Hd2).
      exists v. repeat split; auto.
    + pose proof (initDeviceId_run E s1 w) as Hrun.
      rewrite (Havail (storage_ops w)), Htruthy, (Havail (S (storage_ops w))) in Hrun.
      rewrite Hrun. cbn [fst snd].
      set (id := uuid_v4 E (uuid_calls w)).
      set (w1 := count_storage_op _).
      assert (Hv1 : stored_identifier w1 = Some id).
      { unfold stored_identifier, w1. simpl. apply lookup_insert_eq. }
      destruct (Hkeep s2 w1 id Hv1 (Hgen _)) as (Hi2 & Hu2 & Hd2).
      exists id. repeat split; auto. apply Hgen.
  - intros v Hv Hne. destruct (Hkeep s1 w v Hv Hne) as (Hi & Hu & _). auto.
  - intros Hok Hchanged.
    destruct (truthy_str (stored_identifier w)) eqn:Htruthy.
    + exfalso. rewrite initDeviceId_run, Htruthy in Hchanged.
      destruct (storage_fault E (storage_ops w)); cbn in Hchanged;
        destruct Hchanged as [H | H]; apply H; reflexivity.
    + exact (truthy_str_stored w Hok Htruthy).
  - exact (initDeviceId_store_ok E s1 w Hgen).
Qed.

Lemma initDeviceId_idempotent_witness :
  exists id,
    id <> ""
    /\ deviceId (fst (snd (initDeviceId (sample_env hangs None)
                             (initial_screen, init_world)))) = Some id
    /\ deviceId (fst (snd (initDeviceId (sample_env hangs None)
                             (initial_screen,
                              snd (snd (initDeviceId (sample_env hangs None)
                                          (initial_screen, init_world)))))))
       = Some id.
Proof.
  assert (Hgen : generates_identifiers (sample_env hangs None)).
  { intros n. simpl. discriminate. }
  destruct (proj1 (initDeviceId_idempotent (sample_env hangs None)
                     initial_screen initial_screen init_world Hgen))
    as (id & Hne & H1 & H2 & _).
  - intros n. reflexivity.
  - exists id. repeat split; assumption.
Defined.

(** A value stored under the key that is the empty string counts as no
    identifier: the initialization replaces it. *)
Example empty_stored_value_is_replaced :
  let w := set_items {[ DEVICE_ID_KEY := "" ]} init_world in
  stored_identifier (snd (snd (initDeviceId (sample_env hangs None)
                                 (initial_screen, w))))
  = Some "device-0".
Proof. vm_compute. reflexivity. Qed.

(* ===================================================================== *)
(** * The request body of sendTranscript *)
(* ===================================================================== *)

(** ** Reading a JSON string literal back *)

Example read_back_escapes :
  let text := "a" +:+ String "001"%char (String "010"%char (String dquote "\x")) in
  read_string_body (json_escape_string text +:+ String dquote ",rest")
  = Some (text, ",rest").
Proof. reflexivity. Qed.

(** One escaped character reads back as the character. *)
Lemma read_escape c tail :
  read_string_body (json_escape c +:+ tail)
  = match read_string_body tail with
    | Some (t, r) => Some (String c t, r)
    | None => None
    end.
Proof. destruct c as [[] [] [] [] [] [] [] []]; reflexivity. Qed.

Lemma read_escaped s rest :
  read_string_body (json_escape_string s +:+ String dquote rest) = Some (s, rest).
Proof.
  induction s as [|c s IH]; [reflexivity|].
  cbn [json_escape_string]. rewrite append_assoc, read_escape, IH. reflexivity.
Qed.

Lemma json_quote_append s rest :
  json_quote s +:+ rest
  = String dquote (json_escape_string s +:+ String dquote rest).
Proof. unfold json_quote. rewrite append_cons, append_assoc. reflexivity. Qed.

(** A quoted string determines the text, byte for byte, and where it ends. *)
Lemma json_quote_prefix_inj a b x y :
  json_quote a +:+ x = json_quote b +:+ y -> a = b /\ x = y.
Proof.
  rewrite !json_quote_append. intros H. injection H as H.
  apply (f_equal read_string_body) in H. rewrite !read_escaped in H.
  injection H as -> ->. split; reflexivity.
Qed.

Lemma append_inj_l p a b : p +:+ a = p +:+ b -> a = b.
Proof.
  induction p as [|c p IH]; [auto|]. rewrite !append_cons. intros H.
  injection H as H. auto.
Qed.

(** ** The serialized payload *)

Lemma stringify_payload t k c :
  JSON_stringify (transcript_payload t k c)
  = ("{" +:+ json_quote "incident_id" +:+ ":") +:+ json_quote k +:+
    ("," +:+ json_quote "transcript" +:+ ":") +:+ json_quote t +:+
    ("," +:+ json_quote "caller" +:+ ":") +:+ json_quote c +:+ "}".
Proof.
  unfold transcript_payload. cbn [JSON_stringify comma_sep fst snd].
  rewrite !append_assoc. reflexivity.
Qed.

Lemma payload_inj t k c t' k' c' :
  JSON_stringify (transcript_payload t' k' c')
  = JSON_stringify (transcript_payload t k c) ->
  k' = k /\ t' = t /\ c' = c.
Proof.
  rewrite !stringify_payload. intros H.
  apply append_inj_l, json_quote_prefix_inj in H as [-> H].
  apply append_inj_l, json_quote_prefix_inj in H as [-> H].
  apply append_inj_l, json_quote_prefix_inj in H as [-> _].
  auto.
Qed.

Example payload_sample :
  JSON_stringify (transcript_payload "help" "device-0" "civilian")
  = "{" +:+ json_quote "incident_id" +:+ ":" +:+ json_quote "device-0" +:+ ","
    +:+ json_quote "transcript" +:+ ":" +:+ json_quote "help" +:+ ","
    +:+ json_quote "caller" +:+ ":" +:+ json_quote "civilian" +:+ "}".
Proof. reflexivity. Qed.

(** C3.  For every transcript, incident key, timeout and caller, and
    whatever the network does, [sendTranscript] issues exactly one request:
    a POST to the update-transcript endpoint whose body is the JSON
    serialization of the object with the properties incident_id, transcript
    and caller, in which incident_id is the incident key and transcript the
    given text.  The body determines the three texts byte for byte: two
    calls post the same body only if they were given the same key, the same
    transcript and the same caller. *)
Theorem sendTranscript_posts_payload E transcript sessionId timeoutMs caller w :
  let req := update_transcript_request transcript sessionId caller in
  let payload := JObj [("incident_id", JStr sessionId);
                       ("transcript", JStr transcript);
                       ("caller", JStr caller)] in
  requests (trace (snd (sendTranscript E transcript sessionId timeoutMs caller w)))
  = req :: requests (trace w)
  /\ req_url req = "https://vigilis.onrender.com/incident/update_transcript"
  /\ req_method req = "POST"
  /\ req_headers req = [("Content-Type", "application/json");
                        ("Accept", "application/json")]
  /\ req_payload req = BodyText (JSON_stringify payload)
  /\ assoc "incident_id" [("incident_id", JStr sessionId);
                          ("transcript", JStr transcript);
                          ("caller", JStr caller)] = Some (JStr sessionId)
  /\ assoc "transcript" [("incident_id", JStr sessionId);
                         ("transcript", JStr transcript);
                         ("caller", JStr caller)] = Some (JStr transcript)
  /\ (forall transcript' sessionId' caller',
        req_payload (update_transcript_request transcript' sessionId' caller')
        = req_payload req ->
        sessionId' = sessionId /\ transcript' = transcript /\ caller' = caller).
Proof.
  intros req payload. split; [apply sendTranscript_requests|].
  do 6 (split; [reflexivity|]).
  intros transcript' sessionId' caller' H.
  apply payload_inj.
  exact (f_equal (fun b => match b with BodyText s => s | BodyForm _ => "" end) H).
Qed.

Lemma sendTranscript_posts_payload_witness :
  requests (trace (snd (sendTranscript (sample_env hangs None) "help" "device-0"
                          15000 "civilian" init_world)))
  = [update_transcript_request "help" "device-0" "civilian"]
  /\ req_payload (update_transcript_request "help!" "device-0" "civilian")
     <> req_payload (update_transcript_request "help" "device-0" "civilian").
Proof.
  pose proof (sendTranscript_posts_payload (sample_env hangs None) "help"
                "device-0" 15000 "civilian" init_world) as Hpost.
  cbv zeta in Hpost.
  destruct Hpost as (Hreq & _ & _ & _ & _ & _ & _ & Hinj).
  split; [exact Hreq|].
  intros H. destruct (Hinj _ _ _ H) as (_ & Ht & _). discriminate Ht.
Defined.

(* ===================================================================== *)
(** * More on sendTranscript *)
(* ===================================================================== *)

(** The world after [clearTimeout(id)]. *)
Definition disarmed (id : nat) (w : world) : world :=
  set_timers (List.filter (fun t => negb (tm_id t =? id)%nat) (timers w)) w.

(** The rejection [sendTranscript] makes of a caught error. *)
Definition send_rejection (e : js_error) : js_error :=
  if (err_name e =? "AbortError")%string
  then Error "Request timed out sending transcript"
  else e.

(** [sendTranscript], case by case on what the network does. *)
Lemma sendTranscript_run E t k ms c w :
  sendTranscript E t k ms c w =
  let req := update_transcript_request t k c in
  let settled l :=
    disarmed (fresh_timer w)
      (disarmed (fresh_timer w) (set_clock (clock w + l) (issued req ms w))) in
  let aborted_at :=
    disarmed (fresh_timer w)
      (fire_abort (fresh_ctrl w) (clock w + ms) (issued req ms w)) in
  let unsettled l :=
    disarmed (fresh_timer w) (set_clock (clock w + l) (issued req ms w)) in
  match net E req with
  | NetRespond l r =>
      if timer_wins E (clock w + ms) (clock w + l)
      then (Threw (Error "Request timed out sending transcript"), aborted_at)
      else if ok r then
        (match res_json_result r with
         | inl v => Returned v
         | inr e => Threw e
         end, settled l)
      else
        (match res_text_result r with
         | inl body => Threw (Error ("Failed to send transcript: "
                                     +:+ pretty (status r) +:+ " " +:+ body))
         | inr e => Threw (send_rejection e)
         end, settled l)
  | NetReject l e =>
      if timer_wins E (clock w + ms) (clock w + l)
      then (Threw (Error "Request timed out sending transcript"), aborted_at)
      else (Threw (send_rejection e), unsettled l)
  | NetHang =>
      (Threw (Error "Request timed out sending transcript"), aborted_at)
  end.
Proof.
  rewrite sendTranscript_unfold.
  unfold bind, try_finally, try_catch, send_rejection. rewrite fetch_armed.
  destruct (net E _) as [l r | l e |];
    [destruct (timer_wins _ _ _) | destruct (timer_wins _ _ _) |]; cbn;
    try reflexivity.
  - destruct (ok r); cbn.
    + unfold res_json. destruct (res_json_result r); reflexivity.
    + unfold res_text. destruct (res_text_result r) as [s|e]; cbn.
      * reflexivity.
      * destruct (err_name e =? "AbortError")%string; reflexivity.
  - destruct (err_name e =? "AbortError")%string; reflexivity.
Qed.

Lemma filter_fresh_timer w :
  List.filter (fun t => negb (tm_id t =? fresh_timer w)%nat) (timers w) = timers w.
Proof.
  assert (H : forall ts, (forall t, In t ts -> tm_id t <> fresh_timer w) ->
              List.filter (fun t => negb (tm_id t =? fresh_timer w)%nat) ts = ts).
  { induction ts as [|t ts IH]; intros Hts; [reflexivity|].
    simpl. destruct (Nat.eqb_spec (tm_id t) (fresh_timer w)) as [Heq|_].
    - exfalso. apply (Hts t); [left; reflexivity | exact Heq].
    - simpl. rewrite IH; [reflexivity|]. intros t' Ht'. apply Hts. right. exact Ht'. }
  apply H. intros t Ht Heq.
  assert (tm_id t < fresh_timer w); [|lia].
  apply below_list_max. apply in_map. exact Ht.
Qed.

Lemma filter_fresh_ctrl w d :
  List.filter (fun t => negb ((tm_ctrl t =? fresh_ctrl w)%nat && (tm_fire t <=? d)%N))
    (timers w) = timers w.
Proof.
  assert (H : forall ts, (forall t, In t ts -> tm_ctrl t <> fresh_ctrl w) ->
              List.filter (fun t => negb ((tm_ctrl t =? fresh_ctrl w)%nat
                                          && (tm_fire t <=? d)%N)) ts = ts).
  { induction ts as [|t ts IH]; intros Hts; [reflexivity|].
    simpl. destruct (Nat.eqb_spec (tm_ctrl t) (fresh_ctrl w)) as [Heq|_].
    - exfalso. apply (Hts t); [left; reflexivity | exact Heq].
    - simpl. rewrite IH; [reflexivity|]. intros t' Ht'. apply Hts. right. exact Ht'. }
  apply H. intros t Ht Heq.
  assert (tm_ctrl t < fresh_ctrl w); [|lia].
  apply below_list_max. apply in_or_app. left. apply in_map. exact Ht.
Qed.

(** Once the request has settled and the timer is cleared, the armed timers
    are those from before the call. *)
Lemma timers_settled req ms l w :
  timers (disarmed (fresh_timer w) (set_clock (clock w + l) (issued req ms w)))
  = timers w.
Proof.
  unfold disarmed, issued, armed. cbn. rewrite Nat.eqb_refl. cbn.
  apply filter_fresh_timer.
Qed.

Lemma timers_aborted req ms w :
  timers (disarmed (fresh_timer w)
            (fire_abort (fresh_ctrl w) (clock w + ms) (issued req ms w)))
  = timers w.
Proof.
  unfold disarmed, fire_abort, issued, armed. cbn.
  rewrite Nat.eqb_refl, N.leb_refl. cbn.
  rewrite filter_fresh_ctrl. apply filter_fresh_timer.
Qed.

Lemma timers_disarmed_twice id w :
  timers (disarmed id (disarmed id w)) = timers (disarmed id w).
Proof.
  unfold disarmed. cbn. induction (timers w) as [|t ts IH]; [reflexivity|].
  simpl. destruct (tm_id t =? id)%nat eqn:Ht; simpl; [exact IH|].
  rewrite Ht. simpl. rewrite IH. reflexivity.
Qed.

Lemma timer_loses_bound E ms l t :
  timer_wins E (t + ms) (t + l) = false -> (l <= ms)%N.
Proof.
  unfold timer_wins. intros H. apply orb_false_iff in H as [H _].
  apply N.ltb_ge in H. lia.
Qed.

(** X1.  [sendTranscript] never hangs: whatever the network does, it returns
    or throws no later than [timeoutMs] after the call; and it always
    disarms its timer, so that the armed timers are those from before the
    call.  It does not touch the device store. *)
Theorem sendTranscript_always_settles E transcript sessionId timeoutMs caller w :
  let run := sendTranscript E transcript sessionId timeoutMs caller w in
  fst run <> Pending
  /\ timers (snd run) = timers w
  /\ (clock w <= clock (snd run) <= clock w + timeoutMs)%N
  /\ items (snd run) = items w.
Proof.
  cbv zeta. rewrite sendTranscript_run. cbv zeta.
  destruct (net E _) as [l r | l e |].
  - destruct (timer_wins _ _ _) eqn:Hrace.
    + cbn [fst snd]. rewrite timers_aborted.
      repeat split; try discriminate; cbn; lia.
    + apply timer_loses_bound in Hrace.
      destruct (ok r); cbn [fst snd];
        rewrite timers_disarmed_twice, timers_settled;
        (repeat split; [| cbn; lia | cbn; lia]).
      * destruct (res_json_result r); discriminate.
      * destruct (res_text_result r); discriminate.
  - destruct (timer_wins _ _ _) eqn:Hrace.
    + cbn [fst snd]. rewrite timers_aborted.
      repeat split; try discriminate; cbn; lia.
    + apply timer_loses_bound in Hrace. cbn [fst snd]. rewrite timers_settled.
      repeat split; try discriminate; cbn; lia.
  - cbn [fst snd]. rewrite timers_aborted.
    repeat split; try discriminate; cbn; lia.
Qed.

(** X2.  When the relay answers within the timeout: with a success status,
    [sendTranscript] settles as the reading of the JSON body does (the parsed
    body, or the parse error as it is); with any other status and a readable
    body, it throws an error naming the status and the body.  In both cases
    the controller is not aborted. *)
Theorem sendTranscript_reply E transcript sessionId timeoutMs caller w l r :
  net E (update_transcript_request transcript sessionId caller) = NetRespond l r ->
  (l < timeoutMs)%N ->
  let run := sendTranscript E transcript sessionId timeoutMs caller w in
  (ok r = true ->
   fst run = match res_json_result r with
             | inl v => Returned v
             | inr e => Threw e
             end)
  /\ (forall body, ok r = false -> res_text_result r = inl body ->
      fst run = Threw (Error ("Failed to send transcript: " +:+ pretty (status r)
                              +:+ " " +:+ body)))
  /\ aborted (snd run) = aborted w
  /\ clock (snd run) = (clock w + l)%N.
Proof.
  intros Hnet Hl. cbv zeta. rewrite sendTranscript_run. cbv zeta.
  rewrite Hnet, (timer_wins_early E _ _ _ Hl).
  split; [|split].
  - intros ->. reflexivity.
  - intros body -> ->. reflexivity.
  - destruct (ok r); split; reflexivity.
Qed.

Lemma sendTranscript_reply_witness :
  fst (sendTranscript (sample_env (answers 200 "" (JObj [("incident_id", JStr "device-0")])) None)
         "help" "device-0" 15000 "civilian" init_world)
  = Returned (JObj [("incident_id", JStr "device-0")])
  /\ fst (sendTranscript (sample_env (answers 422 "bad input" JNull) None)
            "help" "device-0" 15000 "civilian" init_world)
     = Threw (Error "Failed to send transcript: 422 bad input").
Proof.
  split.
  - exact (proj1 (sendTranscript_reply
                    (sample_env (answers 200 "" (JObj [("incident_id", JStr "device-0")])) None)
                    "help" "device-0" 15000 "civilian" init_world 120
                    (MkResponse 200 "" (inl "") (inl (JObj [("incident_id", JStr "device-0")])))
                    eq_refl eq_refl) eq_refl).
  - exact (proj1 (proj2 (sendTranscript_reply
                    (sample_env (answers 422 "bad input" JNull) None)
                    "help" "device-0" 15000 "civilian" init_world 120
                    (MkResponse 422 "" (inl "bad input") (inl JNull))
                    eq_refl eq_refl)) "bad input" eq_refl eq_refl).
Defined.

(** X3.  A network failure that comes before the timeout is thrown to the
    caller as it is (it is not reported as a timeout), after the one request
    was issued; the controller is not aborted. *)
Theorem sendTranscript_network_error E transcript sessionId timeoutMs caller w l e :
  net E (update_transcript_request transcript sessionId caller) = NetReject l e ->
  (l < timeoutMs)%N ->
  err_name e <> "AbortError" ->
  let run := sendTranscript E transcript sessionId timeoutMs caller w in
  fst run = Threw e
  /\ aborted (snd run) = aborted w
  /\ aborts (trace (snd run)) = aborts (trace w).
Proof.
  intros Hnet Hl Hname. cbv zeta. rewrite sendTranscript_run. cbv zeta.
  rewrite Hnet, (timer_wins_early E _ _ _ Hl). unfold send_rejection.
  destruct (String.eqb_spec (err_name e) "AbortError"); [contradiction|].
  repeat split.
Qed.

Lemma sendTranscript_network_error_witness :
  fst (sendTranscript
         (sample_env (fun _ => NetReject 30 (MkError "TypeError" "Network request failed"))
                     None)
         "help" "device-0" 15000 "civilian" init_world)
  = Threw (MkError "TypeError" "Network request failed").
Proof.
  refine (proj1 (sendTranscript_network_error
                   (sample_env (fun _ => NetReject 30 (MkError "TypeError" "Network request failed")) None)
                   "help" "device-0" 15000 "civilian" init_world 30
                   (MkError "TypeError" "Network request failed") eq_refl eq_refl _)).
  discriminate.
Defined.

(* ===================================================================== *)
(** * More on transcribeAudio *)
(* ===================================================================== *)

(** A computation that settles and leaves the state as it was. *)
Definition steady {S A} (m : M S A) : Prop :=
  forall s, snd (m s) = s /\ fst (m s) <> Pending.

Lemma steady_ret {S A} (a : A) : steady (@ret S A a).
Proof. intros s. split; [reflexivity | discriminate]. Qed.

Lemma steady_throw {S A} (e : js_error) : steady (@throw S A e).
Proof. intros s. split; [reflexivity | discriminate]. Qed.

Lemma steady_bind {S A B} (m : M S A) (k : A -> M S B) :
  steady m -> (forall a, steady (k a)) -> steady (bind m k).
Proof.
  intros Hm Hk s. unfold bind. destruct (Hm s) as [Hs Hp].
  destruct (m s) as [[a | e |] s']; cbn in Hs, Hp; subst s'.
  - apply Hk.
  - split; [reflexivity | discriminate].
  - contradiction.
Qed.

Lemma steady_get_property {S} E key v : steady (@get_property S E key v).
Proof. destruct v; try apply steady_ret. apply steady_throw. Qed.

Lemma steady_has_property {S} E key v : steady (@has_property S E key v).
Proof. destruct v; try apply steady_ret; apply steady_throw. Qed.

Lemma steady_string_field {S} E key v : steady (@string_field S E key v).
Proof.
  unfold string_field. apply steady_bind; [apply steady_has_property|].
  intros [|]; [|apply steady_ret].
  apply steady_bind; [apply steady_get_property|]. intros a. apply steady_ret.
Qed.

Lemma steady_channel_text {S} E c : steady (@channel_text S E c).
Proof.
  unfold channel_text. apply steady_bind; [apply steady_get_property|].
  intros a. destruct (truthy_opt a); [apply steady_ret|].
  apply steady_bind; [apply steady_get_property|].
  intros b. destruct (truthy_opt b); [apply steady_ret|].
  apply steady_get_property.
Qed.

Lemma steady_mapM {S A B} (f : A -> M S B) l :
  (forall x, steady (f x)) -> steady (mapM f l).
Proof.
  intros Hf. induction l as [|x l IH]; [apply steady_ret|].
  cbn [mapM]. apply steady_bind; [apply Hf|]. intros y.
  apply steady_bind; [exact IH|]. intros ys. apply steady_ret.
Qed.

(** The extraction has no effect and never hangs, on every body. *)
Lemma steady_extract_text {S} E data : steady (@extract_text S E data).
Proof.
  unfold extract_text. destruct (negb (truthy data)); [apply steady_ret|].
  destruct data; try apply steady_ret;
    (apply steady_bind; [apply steady_string_field|]; intros [t|]; [apply steady_ret|];
     apply steady_bind; [apply steady_string_field|]; intros [c|]; [apply steady_ret|];
     apply steady_bind; [apply steady_string_field|]; intros [r|]; [apply steady_ret|];
     apply steady_bind; [apply steady_has_property|]; intros present;
     apply steady_bind;
       [destruct present; [apply steady_get_property | apply steady_ret]|];
     intros [[ | b0 | n0 | s0 | cs | ps]|]; try apply steady_ret;
     apply steady_bind; [apply steady_mapM; intros x; apply steady_channel_text|];
     intros mapped;
     destruct (0 <? length (List.filter truthy_opt mapped))%nat; apply steady_ret).
Qed.

(** The rejection [transcribeAudio] makes of a caught error. *)
Definition stt_rejection (e : js_error) : js_error :=
  if (err_name e =? "AbortError")%string
  then Error "Transcription request timed out"
  else e.

(** An outcome as the [catch] of [transcribeAudio] passes it on. *)
Definition passed_on (o : outcome string) : outcome string :=
  match o with
  | Threw e => Threw (stt_rejection e)
  | _ => o
  end.

(** [transcribeAudio] with a configured key, case by case on what the
    network does. *)
Lemma transcribeAudio_run E f ms w :
  truthy_str (ELEVENLABS_API_KEY E) = true ->
  transcribeAudio E f ms w =
  let req := stt_request E f in
  let w0 := prepared w in
  let aborted_at := fire_abort (fresh_ctrl w0) (clock w0 + ms) (issued req ms w0) in
  let settled l :=
    disarmed (fresh_timer w0) (set_clock (clock w0 + l) (issued req ms w0)) in
  match net E req with
  | NetRespond l r =>
      if timer_wins E (clock w0 + ms) (clock w0 + l)
      then (Threw (Error "Transcription request timed out"), aborted_at)
      else if ok r then
        (passed_on (fst (extract_text E (parsed_body r) (settled l))), settled l)
      else
        (Threw (Error ("ElevenLabs STT request failed: " +:+ pretty (status r)
                       +:+ " " +:+ statusText r +:+ " " +:+ error_body r)),
         settled l)
  | NetReject l e =>
      if timer_wins E (clock w0 + ms) (clock w0 + l)
      then (Threw (Error "Transcription request timed out"), aborted_at)
      else (Threw (stt_rejection e), set_clock (clock w0 + l) (issued req ms w0))
  | NetHang => (Threw (Error "Transcription request timed out"), aborted_at)
  end.
Proof.
  intros Hkey. rewrite (transcribeAudio_unfold _ _ _ _ Hkey). cbv zeta.
  unfold try_catch, bind. rewrite fetch_armed.
  destruct (net E _) as [l r | l e |];
    [destruct (timer_wins _ _ _) | destruct (timer_wins _ _ _) |];
    try reflexivity.
  - cbn [clearTimeout]. fold (disarmed (fresh_timer (prepared w))
                                (set_clock (clock (prepared w) + l)
                                   (issued (stt_request E f) ms (prepared w)))).
    set (W := disarmed _ _).
    destruct (ok r); cbn [negb].
    + rewrite catch_default_res_json.
      destruct (steady_extract_text (S := world) E (parsed_body r) W) as [Hs Hp].
      destruct (extract_text E (parsed_body r) W) as [[txt | e |] s'];
        cbn in Hs, Hp; subst s'.
      * reflexivity.
      * cbn. unfold stt_rejection.
        destruct (err_name e =? "AbortError")%string; reflexivity.
      * contradiction.
    + rewrite catch_default_res_text. reflexivity.
  - unfold stt_rejection.
    destruct (err_name e =? "AbortError")%string; reflexivity.
Qed.

(** X4.  [transcribeAudio] never hangs: it returns or throws no later than
    [timeoutMs] after the call.  With a configured key it issues exactly one
    request, whatever the network does: the upload, a multipart form of the
    file and the model identifier; without one it issues none. *)
Theorem transcribeAudio_always_settles E fileBlob timeoutMs w :
  let run := transcribeAudio E fileBlob timeoutMs w in
  fst run <> Pending
  /\ (clock w <= clock (snd run) <= clock w + timeoutMs)%N
  /\ requests (trace (snd run))
     = (if truthy_str (ELEVENLABS_API_KEY E)
        then stt_request E fileBlob :: requests (trace w)
        else requests (trace w))
  /\ exists file,
       req_payload (stt_request E fileBlob)
       = BodyForm [("file", file); ("model_id", FormText "scribe_v1")].
Proof.
  cbv zeta.
  destruct (truthy_str (ELEVENLABS_API_KEY E)) eqn:Hkey.
  - rewrite (transcribeAudio_run E fileBlob timeoutMs w Hkey). cbv zeta.
    assert (Hform : exists file,
               req_payload (stt_request E fileBlob)
               = BodyForm [("file", file); ("model_id", FormText "scribe_v1")]).
    { eexists. reflexivity. }
    destruct (net E _) as [l r | l e |].
    + destruct (timer_wins _ _ _) eqn:Hrace.
      * repeat split; try discriminate; try exact Hform; cbn; lia.
      * apply timer_loses_bound in Hrace. cbn in Hrace.
        destruct (ok r); cbn [fst snd];
          (split; [| split; [cbn; lia | split; [reflexivity | exact Hform]]]);
          [|discriminate].
        destruct (steady_extract_text (S := world) E (parsed_body r)
                    (disarmed (fresh_timer (prepared w))
                       (set_clock (clock (prepared w) + l)
                          (issued (stt_request E fileBlob) timeoutMs (prepared w)))))
          as [_ Hp].
        destruct (fst (extract_text _ _ _)); cbn; try discriminate.
        contradiction.
    + destruct (timer_wins _ _ _) eqn:Hrace.
      * repeat split; try discriminate; try exact Hform; cbn; lia.
      * apply timer_loses_bound in Hrace. cbn in Hrace.
        repeat split; try discriminate; try exact Hform; cbn; lia.
    + repeat split; try discriminate; try exact Hform; cbn; lia.
  - unfold transcribeAudio. rewrite Hkey. cbn.
    repeat split; try discriminate; try lia. eexists. reflexivity.
Qed.

(** X5.  When the speech-to-text endpoint answers within the timeout with a
    status that is not a success, [transcribeAudio] throws an error naming
    the status, the status text and the response body (the empty text when
    the body cannot be read). *)
Theorem transcribeAudio_upstream_error E fileBlob timeoutMs w l r :
  truthy_str (ELEVENLABS_API_KEY E) = true ->
  net E (stt_request E fileBlob) = NetRespond l r ->
  (l < timeoutMs)%N ->
  ok r = false ->
  fst (transcribeAudio E fileBlob timeoutMs w)
  = Threw (Error ("ElevenLabs STT request failed: " +:+ pretty (status r)
                  +:+ " " +:+ statusText r +:+ " " +:+ error_body r)).
Proof.
  intros Hkey Hnet Hl Hok.
  rewrite (transcribeAudio_run E fileBlob timeoutMs w Hkey). cbv zeta.
  rewrite Hnet. change (clock (prepared w)) with (clock w).
  rewrite (timer_wins_early E _ _ _ Hl), Hok. reflexivity.
Qed.

Lemma transcribeAudio_upstream_error_witness :
  fst (transcribeAudio
         (sample_env (fun _ => NetRespond 120
                         (MkResponse 422 "Unprocessable Entity"
                            (inl "model_id missing") (inl JNull)))
                     (Some "key"))
         sample_file 60000 init_world)
  = Threw (Error "ElevenLabs STT request failed: 422 Unprocessable Entity model_id missing").
Proof.
  exact (transcribeAudio_upstream_error
           (sample_env (fun _ => NetRespond 120
                           (MkResponse 422 "Unprocessable Entity"
                              (inl "model_id missing") (inl JNull)))
                       (Some "key"))
           sample_file 60000 init_world 120
           (MkResponse 422 "Unprocessable Entity" (inl "model_id missing") (inl JNull))
           eq_refl eq_refl eq_refl eq_refl).
Defined.

(** X6.  [transcribeAudio] has no [finally]: when the network fails before
    the timeout, the failure is thrown as it is and the timer stays armed
    (it is the one timer added to those from before the call); when the
    request is answered or aborted, no timer of the call is left. *)
Theorem transcribeAudio_timer_after_failure E fileBlob timeoutMs w :
  truthy_str (ELEVENLABS_API_KEY E) = true ->
  let run := transcribeAudio E fileBlob timeoutMs w in
  (forall l e,
     net E (stt_request E fileBlob) = NetReject l e ->
     (l < timeoutMs)%N ->
     err_name e <> "AbortError" ->
     fst run = Threw e
     /\ timers (snd run)
        = MkTimer (fresh_timer w) (clock w + timeoutMs) (fresh_ctrl w) :: timers w)
  /\ ((forall l e, net E (stt_request E fileBlob) <> NetReject l e) ->
      timers (snd run) = timers w).
Proof.
  intros Hkey. cbv zeta.
  rewrite (transcribeAudio_run E fileBlob timeoutMs w Hkey). cbv zeta.
  change (clock (prepared w)) with (clock w).
  split.
  - intros l e Hnet Hl Hname. rewrite Hnet, (timer_wins_early E _ _ _ Hl).
    unfold stt_rejection.
    destruct (String.eqb_spec (err_name e) "AbortError"); [contradiction|].
    split; reflexivity.
  - intros Hnot.
    pose proof (timers_settled (stt_request E fileBlob) timeoutMs) as Hsettled.
    pose proof (timers_aborted (stt_request E fileBlob) timeoutMs (prepared w))
      as Haborted.
    assert (Hab : timers (fire_abort (fresh_ctrl (prepared w)) (clock w + timeoutMs)
                            (issued (stt_request E fileBlob) timeoutMs (prepared w)))
                  = timers w).
    { unfold fire_abort, issued, armed. cbn.
      rewrite Nat.eqb_refl, N.leb_refl. cbn.
      exact (filter_fresh_ctrl (prepared w) (clock w + timeoutMs)). }
    destruct (net E _) as [l r | l e |].
    + destruct (timer_wins _ _ _); [exact Hab|].
      destruct (ok r); exact (Hsettled l (prepared w)).
    + exfalso. exact (Hnot l e eq_refl).
    + exact Hab.
Qed.

Lemma transcribeAudio_timer_after_failure_witness :
  fst (transcribeAudio
         (sample_env (fun _ => NetReject 30 (MkError "TypeError" "Network request failed"))
                     (Some "key"))
         sample_file 60000 init_world)
  = Threw (MkError "TypeError" "Network request failed")
  /\ length (timers (snd (transcribeAudio
                            (sample_env (fun _ => NetReject 30
                                           (MkError "TypeError" "Network request failed"))
                                        (Some "key"))
                            sample_file 60000 init_world))) = 1.
Proof.
  destruct (proj1 (transcribeAudio_timer_after_failure
                     (sample_env (fun _ => NetReject 30
                                    (MkError "TypeError" "Network request failed"))
                                 (Some "key"))
                     sample_file 60000 init_world eq_refl)
              30%N (MkError "TypeError" "Network request failed") eq_refl eq_refl)
    as [Hrun Htimers].
  - discriminate.
  - split; [exact Hrun|]. rewrite Htimers. reflexivity.
Defined.

(* ===================================================================== *)
(** * More on notifyCivilianCallStarted *)
(* ===================================================================== *)

(** [fetch] without a signal. *)
Lemma fetch_plain E req w :
  fetch E req None w =
  match net E req with
  | NetRespond l r => (Returned r, set_clock (clock w + l) (log (EvFetch req None) w))
  | NetReject l e => (Threw e, set_clock (clock w + l) (log (EvFetch req None) w))
  | NetHang => (Pending, log (EvFetch req None) w)
  end.
Proof. unfold fetch. cbn. destruct (net E req); reflexivity. Qed.

(** The world once the call-started request has been issued. *)
Definition notified (E : env) (sessionId : string) (w : world) : world :=
  log (EvFetch (call_started_from E sessionId w) None)
    (log (EvConsole "log" "call started") w).

(** [notifyCivilianCallStarted] up to the answer of the network. *)
Lemma notify_run E sessionId w :
  notifyCivilianCallStarted E sessionId w =
  match net E (call_started_from E sessionId w) with
  | NetRespond l r =>
      if ok r then
        (Returned (NotifyResponse r), set_clock (clock w + l) (notified E sessionId w))
      else if (status r =? 404)%Z then
        try_catch
          (_ <- sendTranscript E "" sessionId 5000 "civilian" ;;
           ret NotifyFallback)
          (fun fe =>
             throw (Error ("Failed to notify call started (404) and fallback failed: "
                           +:+ err_message fe)))
          (before_fallback E sessionId l r w)
      else
        (Threw (Error ("Failed to notify call started: " +:+ pretty (status r)
                       +:+ " " +:+ error_body r)),
         after_refusal E sessionId l r w)
  | NetReject l e => (Threw e, set_clock (clock w + l) (notified E sessionId w))
  | NetHang => (Pending, notified E sessionId w)
  end.
Proof.
  destruct (net E (call_started_from E sessionId w)) as [l r | l e |] eqn:Hnet.
  - destruct (ok r) eqn:Hok.
    + unfold notifyCivilianCallStarted, call_started_from in *.
      unfold bind at 1. cbn [console].
      unfold bind at 1. cbn [Date_now_toISOString].
      unfold bind at 1. cbn [clock log].
      rewrite fetch_plain, Hnet, Hok. reflexivity.
    + exact (notify_refused E sessionId w l r Hnet Hok).
  - unfold notifyCivilianCallStarted, call_started_from in *.
    unfold bind at 1. cbn [console].
    unfold bind at 1. cbn [Date_now_toISOString].
    unfold bind at 1. cbn [clock log].
    rewrite fetch_plain, Hnet. reflexivity.
  - unfold notifyCivilianCallStarted, call_started_from in *.
    unfold bind at 1. cbn [console].
    unfold bind at 1. cbn [Date_now_toISOString].
    unfold bind at 1. cbn [clock log].
    rewrite fetch_plain, Hnet. reflexivity.
Qed.

(** X7.  The call-started request carries no abort signal and no timer: when
    the network never settles it, [notifyCivilianCallStarted] never settles
    either; when the network fails, the failure is thrown as it is; when the
    endpoint answers with a success status, the response itself is returned.
    In the three cases the call-started request is the only one issued and
    the armed timers are unchanged. *)
Theorem notify_without_timeout E sessionId w :
  let run := notifyCivilianCallStarted E sessionId w in
  let req := call_started_from E sessionId w in
  (net E req = NetHang -> fst run = Pending)
  /\ (forall l e, net E req = NetReject l e -> fst run = Threw e)
  /\ (forall l r, net E req = NetRespond l r -> ok r = true ->
      fst run = Returned (NotifyResponse r))
  /\ ((forall l r, net E req = NetRespond l r -> ok r = true) ->
      requests (trace (snd run)) = req :: requests (trace w)
      /\ timers (snd run) = timers w).
Proof.
  cbv zeta. rewrite notify_run.
  split; [|split; [|split]].
  - intros ->. reflexivity.
  - intros l e ->. reflexivity.
  - intros l r -> ->. reflexivity.
  - intros Hok. destruct (net E _) as [l r | l e |] eqn:Hnet.
    + rewrite (Hok l r eq_refl). split; reflexivity.
    + split; reflexivity.
    + split; reflexivity.
Qed.

Lemma notify_without_timeout_witness :
  fst (notifyCivilianCallStarted (sample_env hangs None) "device-0" init_world)
  = Pending
  /\ fst (notifyCivilianCallStarted (sample_env (answers 200 "" JNull) None)
            "device-0" init_world)
     = Returned (NotifyResponse (MkResponse 200 "" (inl "") (inl JNull))).
Proof.
  split.
  - exact (proj1 (notify_without_timeout (sample_env hangs None) "device-0"
                    init_world) eq_refl).
  - exact (proj1 (proj2 (proj2 (notify_without_timeout
                                  (sample_env (answers 200 "" JNull) None)
                                  "device-0" init_world)))
             120%N (MkResponse 200 "" (inl "") (inl JNull)) eq_refl eq_refl).
Defined.

(** X8.  When the call-started endpoint answers 404 and the relay then
    accepts the empty transcript within 5000 ms, [notifyCivilianCallStarted]
    resolves to the fallback marker: the incident was created by the
    update-transcript request, the second and last request issued. *)
Theorem notify_fallback_succeeds E sessionId w l r l' r' v :
  net E (call_started_from E sessionId w) = NetRespond l r ->
  status r = 404%Z ->
  net E (update_transcript_request "" sessionId "civilian") = NetRespond l' r' ->
  (l' < 5000)%N ->
  ok r' = true ->
  res_json_result r' = inl v ->
  let run := notifyCivilianCallStarted E sessionId w in
  fst run = Returned NotifyFallback
  /\ requests (trace (snd run))
     = update_transcript_request "" sessionId "civilian"
       :: call_started_from E sessionId w :: requests (trace w)
  /\ clock (snd run) = (clock w + l + l')%N
  /\ timers (snd run) = timers w.
Proof.
  intros Hnet H404 Hnet' Hl' Hok' Hjson. cbv zeta.
  rewrite notify_run, Hnet, (status_404_not_ok r H404), H404.
  cbn [Z.eqb Pos.eqb]. unfold try_catch, bind.
  pose proof (sendTranscript_run E "" sessionId 5000 "civilian"
                (before_fallback E sessionId l r w)) as Hrun.
  cbv zeta in Hrun. rewrite Hnet', (timer_wins_early E _ _ _ Hl'), Hok', Hjson in Hrun.
  rewrite Hrun. cbn [fst snd ret].
  split; [reflexivity|]. split; [reflexivity|]. split; [reflexivity|].
  rewrite timers_disarmed_twice.
  exact (timers_settled _ 5000 l' (before_fallback E sessionId l r w)).
Qed.

Lemma notify_fallback_succeeds_witness :
  fst (notifyCivilianCallStarted
         (sample_env (no_call_started_route
                        (NetRespond 120 (MkResponse 200 "" (inl "")
                                           (inl (JObj [("status", JStr "success")])))))
                     None)
         "device-0" init_world)
  = Returned NotifyFallback.
Proof.
  exact (proj1 (notify_fallback_succeeds
                  (sample_env (no_call_started_route
                                 (NetRespond 120 (MkResponse 200 "" (inl "")
                                                    (inl (JObj [("status", JStr "success")])))))
                              None)
                  "device-0" init_world 80
                  (MkResponse 404 "Not Found" (inl "Not Found")
                     (inr (MkError "SyntaxError" "Unexpected token")))
                  120 (MkResponse 200 "" (inl "") (inl (JObj [("status", JStr "success")])))
                  (JObj [("status", JStr "success")])
                  eq_refl eq_refl eq_refl eq_refl eq_refl eq_refl)).
Defined.

(* ===================================================================== *)
(** * The earlier notifyCivilianCallStarted *)
(* ===================================================================== *)

(** An outcome of the earlier version, read as one of the current version. *)
Definition as_notify_result (o : outcome response) : outcome notify_result :=
  match o with
  | Returned r => Returned (NotifyResponse r)
  | Threw e => Threw e
  | Pending => Pending
  end.

Lemma legacy_notify_run E sessionId w :
  Legacy.notifyCivilianCallStarted E sessionId w =
  match net E (call_started_from E sessionId w) with
  | NetRespond l r =>
      (if ok r then Returned r
       else match res_text_result r with
            | inl body =>
                Threw (Error ("Failed to notify call started: "
                              +:+ pretty (status r) +:+ " " +:+ body))
            | inr e => Threw e
            end,
       set_clock (clock w + l) (notified E sessionId w))
  | NetReject l e => (Threw e, set_clock (clock w + l) (notified E sessionId w))
  | NetHang => (Pending, notified E sessionId w)
  end.
Proof.
  unfold Legacy.notifyCivilianCallStarted, call_started_from, notified.
  unfold bind at 1. cbn [console].
  unfold bind at 1. cbn [Date_now_toISOString].
  unfold bind at 1. cbn [clock log].
  rewrite fetch_plain. unfold call_started_from.
  destruct (net E _) as [l r | l e |]; try reflexivity.
  destruct (ok r); cbn [negb]; [reflexivity|].
  unfold bind, res_text. destruct (res_text_result r); reflexivity.
Qed.

(** X9.  The earlier version of [notifyCivilianCallStarted] always issues
    the call-started request and nothing else.  It settles as the current
    version does whenever the endpoint does not answer 404 and the body of
    an error answer can be read; on a 404 it throws the error naming the
    status and the body, where the current version falls back to
    [sendTranscript]. *)
Theorem legacy_notify_agreement E sessionId w :
  let old := Legacy.notifyCivilianCallStarted E sessionId w in
  let new := notifyCivilianCallStarted E sessionId w in
  let req := call_started_from E sessionId w in
  requests (trace (snd old)) = req :: requests (trace w)
  /\ ((forall l r, net E req = NetRespond l r ->
         ok r = true
         \/ (status r <> 404%Z /\ exists body, res_text_result r = inl body)) ->
      fst new = as_notify_result (fst old))
  /\ (forall l r body,
        net E req = NetRespond l r -> status r = 404%Z ->
        res_text_result r = inl body ->
        fst old = Threw (Error ("Failed to notify call started: 404 " +:+ body))
        /\ requests (trace (snd new))
           = update_transcript_request "" sessionId "civilian"
             :: req :: requests (trace w)).
Proof.
  cbv zeta. rewrite legacy_notify_run, notify_run.
  split; [|split].
  - destruct (net E _) as [l r | l e |]; reflexivity.
  - intros Hcase. destruct (net E _) as [l r | l e |]; try reflexivity.
    destruct (Hcase l r eq_refl) as [Hok | (Hstatus & body & Hbody)].
    + rewrite Hok. reflexivity.
    + destruct (ok r); [reflexivity|].
      destruct (Z.eqb_spec (status r) 404); [contradiction|].
      unfold error_body. rewrite Hbody. reflexivity.
  - intros l r body Hnet H404 Hbody.
    rewrite Hnet, (status_404_not_ok r H404), Hbody, H404.
    split; [reflexivity|]. cbn [Z.eqb Pos.eqb].
    unfold try_catch, bind.
    pose proof (sendTranscript_requests E "" sessionId 5000 "civilian"
                  (before_fallback E sessionId l r w)) as Hreq.
    destruct (sendTranscript E "" sessionId 5000 "civilian"
                (before_fallback E sessionId l r w)) as [[a | e |] w2];
      cbn in Hreq |- *; rewrite Hreq; reflexivity.
Qed.

Lemma legacy_notify_agreement_witness :
  fst (Legacy.notifyCivilianCallStarted
         (sample_env (no_call_started_route NetHang) None) "device-0" init_world)
  = Threw (Error "Failed to notify call started: 404 Not Found")
  /\ fst (notifyCivilianCallStarted (sample_env (answers 503 "down" JNull) None)
            "device-0" init_world)
     = as_notify_result
         (fst (Legacy.notifyCivilianCallStarted
                 (sample_env (answers 503 "down" JNull) None) "device-0" init_world)).
Proof.
  split.
  - exact (proj1 (proj2 (proj2 (legacy_notify_agreement
                                  (sample_env (no_call_started_route NetHang) None)
                                  "device-0" init_world))
                    80%N (MkResponse 404 "Not Found" (inl "Not Found")
                            (inr (MkError "SyntaxError" "Unexpected token")))
                    "Not Found" eq_refl eq_refl eq_refl)).
  - apply (proj1 (proj2 (legacy_notify_agreement
                           (sample_env (answers 503 "down" JNull) None)
                           "device-0" init_world))).
    intros l r Hnet. injection Hnet as <- <-. right.
    split; [discriminate|]. exists "down". reflexivity.
Defined.

(* ===================================================================== *)
(** * More on the send action *)
(* ===================================================================== *)

(** The screen after a send that succeeded. *)
Definition after_sent (msg : string) (s : screen) : screen :=
  MkScreen (recording s) (isRecording s) (transcript s) (isLoading s)
    false None (Some msg) (deviceId s).

(** The success message for the relay's answer [resp]. *)
Definition success_message (resp : json) : string :=
  "Transcript sent successfully to incident "
  +:+ js_toString_opt (field "incident_id" resp).

(** The screen while the request is in flight. *)
Definition while_sending (s : screen) : screen :=
  MkScreen (recording s) (isRecording s) (transcript s) (isLoading s)
    true None None (deviceId s).

(** An accepted send, case by case on how [sendTranscript] settles. *)
Lemma handleSend_accepted E caller s w d :
  send_accepted s d ->
  handleSend E caller (s, w) =
  match sendTranscript E (transcript s) d 15000 caller w with
  | (Returned JNull, w') =>
      (Returned tt,
       (after_failed_send (type_error_text E "property of null") s,
        log (EvConsole "error" "Failed to send transcript:") w'))
  | (Returned resp, w') =>
      (Returned tt,
       (after_sent (success_message resp) s,
        log (EvConsole "log" "sendTranscript response:") w'))
  | (Threw e, w') =>
      (Returned tt,
       (after_failed_send (err_message e) s,
        log (EvConsole "error" "Failed to send transcript:") w'))
  | (Pending, w') => (Pending, (while_sending s, w'))
  end.
Proof.
  intros (Hguard & Hd & Hne).
  unfold handleSend. cbn [fst]. rewrite Hguard, Hd, (truthy_str_some d Hne).
  cbn [negb]. change (default "" (Some d)) with d.
  unfold bind, try_finally, try_catch, setSendLoading, setSendError,
    setSendSuccess, update, in_world.
  cbn [fst snd].
  destruct (sendTranscript E (transcript s) d 15000 caller w) as [[resp | e |] w'].
  - destruct resp; reflexivity.
  - reflexivity.
  - reflexivity.
Qed.

(** X10.  An accepted send (a transcript that passes the guard and a device
    identity) always completes: exactly one request is issued, the
    update-transcript request carrying the screen's transcript, the device
    identity as incident key and the screen's caller tag ('civilian' on the
    civilian screen, 'police officer' on the police screen); the sending
    flag is reset; exactly one of the two banners is set; the transcript,
    the device identity and the recording state are unchanged. *)
Theorem handleSend_accepted_send E caller s w d :
  send_accepted s d ->
  let run := handleSend E caller (s, w) in
  let s' := fst (snd run) in
  fst run = Returned tt
  /\ requests (trace (snd (snd run)))
     = update_transcript_request (transcript s) d caller :: requests (trace w)
  /\ requests (trace (snd (snd (civilian_handleSend E (s, w)))))
     = update_transcript_request (transcript s) d "civilian" :: requests (trace w)
  /\ requests (trace (snd (snd (police_handleSend E (s, w)))))
     = update_transcript_request (transcript s) d "police officer"
       :: requests (trace w)
  /\ sendLoading s' = false
  /\ ((sendError s' = None /\ exists m, sendSuccess s' = Some m)
      \/ (sendSuccess s' = None /\ exists m, sendError s' = Some m))
  /\ transcript s' = transcript s
  /\ deviceId s' = deviceId s
  /\ recording s' = recording s
  /\ isRecording s' = isRecording s
  /\ isLoading s' = isLoading s.
Proof.
  intros Hacc.
  assert (Hreq : forall c,
            requests (trace (snd (snd (handleSend E c (s, w)))))
            = update_transcript_request (transcript s) d c :: requests (trace w)).
  { intros c. rewrite (handleSend_accepted E c s w d Hacc).
    pose proof (sendTranscript_requests E (transcript s) d 15000 c w) as H.
    destruct (sendTranscript E (transcript s) d 15000 c w) as [[resp | e |] w'];
      cbn in H; [destruct resp | |]; exact H. }
  cbv zeta. split; [|split; [apply Hreq | split; [apply Hreq | split; [apply Hreq|]]]].
  - rewrite (handleSend_accepted E caller s w d Hacc).
    pose proof (sendTranscript_always_settles E (transcript s) d 15000 caller w) as H.
    cbv zeta in H. destruct H as [H _].
    destruct (sendTranscript E (transcript s) d 15000 caller w) as [[resp | e |] w'];
      [destruct resp | |]; try reflexivity.
    exfalso. apply H. reflexivity.
  - rewrite (handleSend_accepted E caller s w d Hacc).
    pose proof (sendTranscript_always_settles E (transcript s) d 15000 caller w) as H.
    cbv zeta in H. destruct H as [H _].
    destruct (sendTranscript E (transcript s) d 15000 caller w) as [[resp | e |] w'];
      [destruct resp | |]; cbn;
      try (repeat split; try reflexivity; left; split; [reflexivity | eexists; reflexivity]);
      try (repeat split; try reflexivity; right; split; [reflexivity | eexists; reflexivity]).
    exfalso. apply H. reflexivity.
Qed.

Lemma handleSend_accepted_send_witness :
  fst (handleSend (sample_env hangs None) "police officer" (ready_screen, init_world))
  = Returned tt
  /\ requests (trace (snd (snd (handleSend (sample_env hangs None) "police officer"
                                  (ready_screen, init_world)))))
     = [update_transcript_request "there is a fire on main street" "device-0"
          "police officer"].
Proof.
  pose proof (handleSend_accepted_send (sample_env hangs None) "police officer"
                ready_screen init_world "device-0") as H.
  cbv zeta in H. destruct H as (Hrun & Hreq & _).
  - repeat split; try reflexivity. discriminate.
  - split; [exact Hrun | exact Hreq].
Defined.

(** X11.  What an accepted send shows when the relay has answered with a
    JSON body: the success message names [resp.incident_id] as a template
    literal prints it, so an answer without that property yields a message
    ending in "undefined"; an answer that is JSON [null] makes the property
    read throw, and the error banner shows the engine's TypeError message
    instead of a success. *)
Theorem handleSend_success_message E caller s w d resp w' :
  send_accepted s d ->
  sendTranscript E (transcript s) d 15000 caller w = (Returned resp, w') ->
  let s' := fst (snd (handleSend E caller (s, w))) in
  (resp <> JNull ->
   sendSuccess s' = Some ("Transcript sent successfully to incident "
                          +:+ js_toString_opt (field "incident_id" resp))
   /\ sendError s' = None)
  /\ (forall id, field "incident_id" resp = Some (JStr id) ->
      success_banner s' = Some ("Transcript sent successfully to incident " +:+ id))
  /\ (resp <> JNull -> field "incident_id" resp = None ->
      success_banner s' = Some "Transcript sent successfully to incident undefined")
  /\ (resp = JNull ->
      sendSuccess s' = None
      /\ sendError s' = Some (type_error_text E "property of null")).
Proof.
  intros Hacc Hsend. cbv zeta.
  rewrite (handleSend_accepted E caller s w d Hacc), Hsend.
  split; [|split; [|split]].
  - intros Hnn. destruct resp; try contradiction; split; reflexivity.
  - intros id Hid. destruct resp; try discriminate Hid.
    cbn. unfold success_message. rewrite Hid. reflexivity.
  - intros Hnn Hid. destruct resp; try contradiction; cbn;
      unfold success_message; try rewrite Hid; reflexivity.
  - intros ->. split; reflexivity.
Qed.

Lemma handleSend_success_message_witness :
  success_banner
    (fst (snd (handleSend (sample_env (answers 200 "" (JObj [("status", JStr "success")])) None)
                 "civilian" (ready_screen, init_world))))
  = Some "Transcript sent successfully to incident undefined".
Proof.
  refine (proj1 (proj2 (proj2
            (handleSend_success_message
               (sample_env (answers 200 "" (JObj [("status", JStr "success")])) None)
               "civilian" ready_screen init_world "device-0"
               (JObj [("status", JStr "success")])
               (snd (sendTranscript
                       (sample_env (answers 200 "" (JObj [("status", JStr "success")])) None)
                       (transcript ready_screen) "device-0" 15000 "civilian" init_world))
               _ _))) _ _).
  - repeat split; try reflexivity. discriminate.
  - reflexivity.
  - discriminate.
  - reflexivity.
Defined.

Lemma prefix_of_append (a rest : string) : String.prefix a (a +:+ rest) = true.
Proof.
  induction a as [|c a IH]; [destruct rest; reflexivity|].
  rewrite append_cons. simpl. destruct (ascii_dec c c); [exact IH | contradiction].
Qed.

(** X12.  The guard of the send action looks at the first characters only:
    every transcript that is empty or begins with "Tap" or with "Recording",
    a transcribed one included, is refused with 'No transcript to send',
    whether or not the device identity is set, and nothing is sent. *)
Theorem handleSend_refuses_by_prefix E caller s w rest :
  transcript s = "" \/ transcript s = "Tap" +:+ rest
  \/ transcript s = "Recording" +:+ rest ->
  handleSend E caller (s, w)
  = (Returned tt, (with_sendError "No transcript to send" s, w)).
Proof.
  intros H. apply handleSend_no_transcript.
  destruct H as [-> | [-> | ->]]; [reflexivity | |].
  - rewrite (prefix_of_append "Tap" rest). apply orb_true_r.
  - rewrite (prefix_of_append "Recording" rest).
    destruct ("Recording" +:+ rest =? "")%string; reflexivity.
Qed.

Lemma handleSend_refuses_by_prefix_witness :
  handleSend (sample_env hangs None) "civilian"
    (MkScreen None false "Tap water is flooding the basement" false false None None
       (Some "device-0"), init_world)
  = (Returned tt,
     (with_sendError "No transcript to send"
        (MkScreen None false "Tap water is flooding the basement" false false None
           None (Some "device-0")), init_world)).
Proof.
  apply (handleSend_refuses_by_prefix (sample_env hangs None) "civilian" _ init_world
           " water is flooding the basement").
  right. left. reflexivity.
Defined.
